(** * mcp-obsidian: the HTTP gateway ([src/mcp_obsidian/http_server.py])

    A shallow embedding of the request handlers of the gateway and of the
    Python operations they are written with, followed by the properties of
    the dispatch core: tool lookup, result normalisation, JSON-RPC
    envelopes, error statuses and the life cycle of the event stream. *)

From Stdlib Require Import String Ascii List ZArith NArith Lia Bool DecimalString.
Import ListNotations.

Local Open Scope string_scope.
Local Open Scope Z_scope.

(** ** Results and exceptions *)

(** The exceptions the handlers can meet.  Every one is a subclass of
    Python's [Exception], so [except Exception] catches them all. *)
Inductive exn : Type :=
| HTTPException (status_code : Z) (detail : string)
| JSONDecodeError (msg : string)
| TypeError (msg : string)
| AttributeError (msg : string)
| KeyError (msg : string)
| ValueError (msg : string)
| ToolError (msg : string).

(** [str(e)].  Starlette's [HTTPException.__str__] prints the status and the
    detail; the built-in exceptions print their message. *)
Definition exn_str (e : exn) : string :=
  match e with
  | HTTPException status_code detail =>
      NilZero.string_of_int (Z.to_int status_code) ++ ": " ++ detail
  | JSONDecodeError msg | TypeError msg | AttributeError msg
  | KeyError msg | ValueError msg | ToolError msg => msg
  end.

Inductive result (A : Type) : Type :=
| Ok (a : A)
| Raise (e : exn).
Arguments Ok {A} a.
Arguments Raise {A} e.

Class Monad (m : Type -> Type) : Type := {
  ret : forall {A}, A -> m A;
  bind : forall {A B}, m A -> (A -> m B) -> m B
}.

Notation "x <- c ;; k" := (bind c (fun x => k))
  (at level 61, c at next level, right associativity).

#[export] Instance result_monad : Monad result := {
  ret := fun A a => Ok a;
  bind := fun A B c k => match c with Ok a => k a | Raise e => Raise e end
}.

(** ** Python values *)

(** Modelled from the spec: a content item of a tool's output (the [tools]
    module is not part of the sources).  A text item carries a [text] field;
    any other item has none, and is known here by the name of its class. *)
Inductive ContentItem : Type :=
| TextContent (text : string)
| OpaqueContent (class_name : string).

Inductive float_class : Type := Finite | NaN | PosInf | NegInf.

(** What is left to the Python runtime: binary64 numbers (how a literal is
    read, printed and classified), [repr] of a string and of an object, and
    the wording of a JSON decoding error; and the state of whatever the tools
    act on (the vault behind them). *)
Class Runtime : Type := {
  World : Type;
  pyfloat : Type;
  float_of_literal : string -> pyfloat;
  float_nan : pyfloat;
  float_inf : pyfloat;
  float_neg_inf : pyfloat;
  float_repr : pyfloat -> string;
  float_classify : pyfloat -> float_class;
  str_repr : string -> string;
  object_repr : ContentItem -> string;
  decode_error_text : string -> string
}.

Section Values.
Context {RT : Runtime}.

(** A [str] is kept as the bytes of its UTF-8 encoding; a [dict] with string
    keys is an association list in insertion order. *)
#[warnings="-register-all"]
Inductive pyval : Type :=
| PyNone
| PyBool (b : bool)
| PyInt (z : Z)
| PyFloat (f : pyfloat)
| PyStr (s : string)
| PyList (l : list pyval)
| PyTuple (l : list pyval)
| PyDict (d : list (string * pyval))
| PyObj (c : ContentItem).

Definition pydict : Type := list (string * pyval).

(** *** Dictionaries *)

Fixpoint dict_lookup {V : Type} (k : string) (d : list (string * V)) : option V :=
  match d with
  | [] => None
  | (k', v) :: d' => if String.eqb k k' then Some v else dict_lookup k d'
  end.

Definition dict_mem {V : Type} (k : string) (d : list (string * V)) : bool :=
  match dict_lookup k d with Some _ => true | None => false end.

(** [d[k] = v]: an existing key keeps its place, a new one goes last. *)
Fixpoint dict_set {V : Type} (k : string) (v : V) (d : list (string * V))
  : list (string * V) :=
  match d with
  | [] => [(k, v)]
  | (k', v') :: d' =>
      if String.eqb k k' then (k, v) :: d' else (k', v') :: dict_set k v d'
  end.

(** [d.get(k, default)] *)
Definition dict_get {V : Type} (k : string) (d : list (string * V)) (default : V) : V :=
  match dict_lookup k d with
  | Some v => v
  | None => default
  end.

Definition dict_keys {V : Type} (d : list (string * V)) : list string :=
  map fst d.

(** *** Strings *)

Fixpoint join (sep : string) (l : list string) : string :=
  match l with
  | [] => EmptyString
  | [s] => s
  | s :: l' => s ++ sep ++ join sep l'
  end.

(** The text with every single quote turned into a double quote: JSON texts
    are written below the way the Python source writes its dicts. *)
Fixpoint dq (s : string) : string :=
  match s with
  | EmptyString => EmptyString
  | String c s' => String (if Ascii.eqb c "'" then "034"%char else c) (dq s')
  end.

(** [sub in s] on two strings. *)
Fixpoint contains_substring (sub s : string) : bool :=
  if String.prefix sub s then true
  else match s with
       | EmptyString => false
       | String _ s' => contains_substring sub s'
       end.

Definition str_of_Z (z : Z) : string := NilZero.string_of_int (Z.to_int z).

(** *** [type(v).__name__], [repr(v)] and [str(v)] *)

Definition type_name (v : pyval) : string :=
  match v with
  | PyNone => "NoneType"
  | PyBool _ => "bool"
  | PyInt _ => "int"
  | PyFloat _ => "float"
  | PyStr _ => "str"
  | PyList _ => "list"
  | PyTuple _ => "tuple"
  | PyDict _ => "dict"
  | PyObj (TextContent _) => "TextContent"
  | PyObj (OpaqueContent class_name) => class_name
  end.

Fixpoint py_repr (v : pyval) : string :=
  match v with
  | PyNone => "None"
  | PyBool true => "True"
  | PyBool false => "False"
  | PyInt z => str_of_Z z
  | PyFloat f => float_repr f
  | PyStr s => str_repr s
  | PyList l => "[" ++ join ", " (map py_repr l) ++ "]"
  | PyTuple [x] => "(" ++ py_repr x ++ ",)"
  | PyTuple l => "(" ++ join ", " (map py_repr l) ++ ")"
  | PyDict d =>
      "{" ++ join ", " (map (fun kv => str_repr (fst kv) ++ ": " ++ py_repr (snd kv)) d)
          ++ "}"
  | PyObj c => object_repr c
  end.

(** What an f-string substitutes for [{v}]. *)
Definition py_str (v : pyval) : string :=
  match v with
  | PyStr s => s
  | _ => py_repr v
  end.

(** *** Operators of the handlers *)

(** [v == s] for a string literal [s]. *)
Definition py_eq_str (v : pyval) (s : string) : bool :=
  match v with
  | PyStr t => String.eqb t s
  | _ => false
  end.

(** [k in v] for a string [k]: key membership on a dict, element membership
    on a list or tuple, substring test on a str; other values are not
    containers. *)
Definition py_in (k : string) (v : pyval) : result bool :=
  match v with
  | PyDict d => Ok (dict_mem k d)
  | PyList l | PyTuple l => Ok (existsb (fun x => py_eq_str x k) l)
  | PyStr s => Ok (contains_substring k s)
  | _ => Raise (TypeError ("argument of type '" ++ type_name v ++ "' is not iterable"))
  end.

(** [v[k]] for a string [k]. *)
Definition py_getitem (v : pyval) (k : string) : result pyval :=
  match v with
  | PyDict d =>
      match dict_lookup k d with
      | Some x => Ok x
      | None => Raise (KeyError (str_repr k))
      end
  | PyList _ => Raise (TypeError "list indices must be integers or slices, not str")
  | PyTuple _ => Raise (TypeError "tuple indices must be integers or slices, not str")
  | PyStr _ => Raise (TypeError "string indices must be integers, not 'str'")
  | _ => Raise (TypeError ("'" ++ type_name v ++ "' object is not subscriptable"))
  end.

(** [v.get(k, default)]: only a dict has the method. *)
Definition py_get (v : pyval) (k : string) (default : pyval) : result pyval :=
  match v with
  | PyDict d => Ok (dict_get k d default)
  | _ => Raise (AttributeError ("'" ++ type_name v ++ "' object has no attribute 'get'"))
  end.

(** A list or a dict cannot be hashed; the other values of a JSON body can. *)
Definition hashable (v : pyval) : bool :=
  match v with
  | PyList _ | PyDict _ => false
  | _ => true
  end.

Definition unhashable (v : pyval) : exn :=
  TypeError ("unhashable type: '" ++ type_name v ++ "'").

(** [k in d] for a dict [d] with string keys and a key [k] read from a JSON
    body: the key is hashed first; a key that is not a string equals none of
    the keys. *)
Definition key_in {V : Type} (k : pyval) (d : list (string * V)) : result bool :=
  if hashable k
  then Ok match k with
          | PyStr s => dict_mem s d
          | _ => false
          end
  else Raise (unhashable k).

(** [isinstance(v, (dict, list))] *)
Definition is_dict_or_list (v : pyval) : bool :=
  match v with
  | PyDict _ | PyList _ => true
  | _ => false
  end.

End Values.

(** ** [json.loads] *)

(** What a scan of the text at some place gives: a value and the text after
    it, a syntax error, or no answer for want of fuel. *)
Inductive scan (A : Type) : Type :=
| Scanned (a : A) (rest : string)
| Malformed
| Exhausted.
Arguments Scanned {A} a rest.
Arguments Malformed {A}.
Arguments Exhausted {A}.

Section Decoder.
Context {RT : Runtime}.

Definition code (c : ascii) : N := N_of_ascii c.

Definition is_digit (c : ascii) : bool :=
  ((48 <=? code c) && (code c <=? 57))%N.

(** The whitespace of the decoder: space, tab, line feed, carriage return. *)
Definition is_ws (c : ascii) : bool :=
  ((code c =? 32) || (code c =? 9) || (code c =? 10) || (code c =? 13))%N.

Fixpoint skip_ws (s : string) : string :=
  match s with
  | String c s' => if is_ws c then skip_ws s' else s
  | EmptyString => s
  end.

Fixpoint strip_prefix (p s : string) : option string :=
  match p with
  | EmptyString => Some s
  | String a p' =>
      match s with
      | String b s' => if Ascii.eqb a b then strip_prefix p' s' else None
      | EmptyString => None
      end
  end.

(** The double quote. *)
Definition dquote : ascii := "034"%char.

(** The rest of the text when it starts with the character [c]. *)
Definition eat (c : ascii) (s : string) : option string :=
  match s with
  | String a r => if Ascii.eqb a c then Some r else None
  | EmptyString => None
  end.

Fixpoint span_digits (s : string) : string * string :=
  match s with
  | String c s' =>
      if is_digit c
      then let (d, r) := span_digits s' in (String c d, r)
      else (EmptyString, s)
  | EmptyString => (EmptyString, EmptyString)
  end.

Fixpoint nat_of_digits (acc : N) (s : string) : N :=
  match s with
  | String c s' => nat_of_digits (10 * acc + (code c - 48))%N s'
  | EmptyString => acc
  end.

(** [int(text)] on the integer part of a number. *)
Definition int_of_literal (s : string) : Z :=
  match eat "-" s with
  | Some d => - Z.of_N (nat_of_digits 0 d)
  | None => Z.of_N (nat_of_digits 0 s)
  end.

(** The three groups of the number pattern: an integer part (an optional
    minus sign, then a single zero or a digit from 1 to 9 and any digits), an
    optional fraction (a point and one digit or more) and an optional exponent
    (e or E, an optional sign, one digit or more). *)
Definition scan_integer (s : string) : option (string * string) :=
  let (sign, s1) :=
    match eat "-" s with
    | Some r => ("-", r)
    | None => (EmptyString, s)
    end in
  match s1 with
  | String c r =>
      if Ascii.eqb c "0" then Some (sign ++ "0", r)
      else if is_digit c
      then let (d, r') := span_digits r in Some (sign ++ String c d, r')
      else None
  | EmptyString => None
  end.

Definition scan_frac (s : string) : string * string :=
  match eat "." s with
  | Some r =>
      match span_digits r with
      | (EmptyString, _) => (EmptyString, s)
      | (d, r') => (String "." d, r')
      end
  | None => (EmptyString, s)
  end.

Definition scan_sign (s : string) : string * string :=
  match eat "+" s with
  | Some r => ("+", r)
  | None =>
      match eat "-" s with
      | Some r => ("-", r)
      | None => (EmptyString, s)
      end
  end.

Definition scan_exp (s : string) : string * string :=
  match s with
  | String e r =>
      if Ascii.eqb e "e" || Ascii.eqb e "E"
      then
        let (sign, r1) := scan_sign r in
        match span_digits r1 with
        | (EmptyString, _) => (EmptyString, s)
        | (d, r') => (String e (sign ++ d), r')
        end
      else (EmptyString, s)
  | EmptyString => (EmptyString, s)
  end.

Definition scan_number (s : string) : option (pyval * string) :=
  match scan_integer s with
  | None => None
  | Some (integer, r) =>
      let (frac, r1) := scan_frac r in
      let (exp, r2) := scan_exp r1 in
      match frac, exp with
      | EmptyString, EmptyString => Some (PyInt (int_of_literal integer), r2)
      | _, _ => Some (PyFloat (float_of_literal (integer ++ frac ++ exp)), r2)
      end
  end.

(** *** Strings *)

(** A piece of a string literal: a byte taken as it stands (or from a short
    escape), or the 16-bit value of a [\uXXXX] escape. *)
Inductive strunit : Type :=
| Byte (c : ascii)
| Escape (u : N).

Definition hex_digit (c : ascii) : option N :=
  let n := code c in
  if ((48 <=? n) && (n <=? 57))%N then Some (n - 48)%N
  else if ((97 <=? n) && (n <=? 102))%N then Some (n - 87)%N
  else if ((65 <=? n) && (n <=? 70))%N then Some (n - 55)%N
  else None.

Definition hex4 (a b c d : ascii) : option N :=
  match hex_digit a, hex_digit b, hex_digit c, hex_digit d with
  | Some x, Some y, Some z, Some w => Some (((x * 16 + y) * 16 + z) * 16 + w)%N
  | _, _, _, _ => None
  end.

(** The one-letter escapes: quote, backslash, slash, b, f, n, r, t. *)
Definition simple_escape (c : ascii) : option ascii :=
  match code c with
  | 34%N => Some (ascii_of_N 34)
  | 92%N => Some (ascii_of_N 92)
  | 47%N => Some (ascii_of_N 47)
  | 98%N => Some (ascii_of_N 8)
  | 102%N => Some (ascii_of_N 12)
  | 110%N => Some (ascii_of_N 10)
  | 114%N => Some (ascii_of_N 13)
  | 116%N => Some (ascii_of_N 9)
  | _ => None
  end.

Definition cons_unit (u : strunit) (r : option (list strunit * string))
  : option (list strunit * string) :=
  match r with
  | Some (l, rest) => Some (u :: l, rest)
  | None => None
  end.

(** The text after an opening quote, up to the closing one (strict mode: a
    control character is refused). *)
Fixpoint scan_units (s : string) : option (list strunit * string) :=
  match s with
  | EmptyString => None
  | String c r =>
      if (code c =? 34)%N then Some ([], r)
      else if (code c =? 92)%N then
        match r with
        | EmptyString => None
        | String e r1 =>
            match simple_escape e with
            | Some b => cons_unit (Byte b) (scan_units r1)
            | None =>
                if (code e =? 117)%N then
                  match r1 with
                  | String h1 (String h2 (String h3 (String h4 r2))) =>
                      match hex4 h1 h2 h3 h4 with
                      | Some u => cons_unit (Escape u) (scan_units r2)
                      | None => None
                      end
                  | _ => None
                  end
                else None
            end
        end
      else if (code c <? 32)%N then None
      else cons_unit (Byte c) (scan_units r)
  end.

Definition chr (n : N) : ascii := ascii_of_N n.

(** The UTF-8 bytes of a code point (a lone surrogate is written like any
    other three-byte code point). *)
Definition utf8_encode (u : N) : string :=
  (if u <? 128 then String (chr u) EmptyString
   else if u <? 2048 then
     String (chr (192 + u / 64)) (String (chr (128 + u mod 64)) EmptyString)
   else if u <? 65536 then
     String (chr (224 + u / 4096))
       (String (chr (128 + (u / 64) mod 64))
          (String (chr (128 + u mod 64)) EmptyString))
   else
     String (chr (240 + u / 262144))
       (String (chr (128 + (u / 4096) mod 64))
          (String (chr (128 + (u / 64) mod 64))
             (String (chr (128 + u mod 64)) EmptyString))))%N.

Definition is_high_surrogate (u : N) : bool := ((55296 <=? u) && (u <=? 56319))%N.
Definition is_low_surrogate (u : N) : bool := ((56320 <=? u) && (u <=? 57343))%N.

(** A high surrogate escape directly followed by a low surrogate escape makes
    one code point. *)
Fixpoint decode_units (l : list strunit) : string :=
  match l with
  | [] => EmptyString
  | Byte c :: l' => String c (decode_units l')
  | Escape hi :: l' =>
      match l' with
      | Escape lo :: l'' =>
          if is_high_surrogate hi && is_low_surrogate lo
          then utf8_encode (65536 + ((hi - 55296) * 1024 + (lo - 56320)))%N
                 ++ decode_units l''
          else utf8_encode hi ++ decode_units l'
      | _ => utf8_encode hi ++ decode_units l'
      end
  end.

Definition scanstring (s : string) : option (string * string) :=
  match scan_units s with
  | Some (l, rest) => Some (decode_units l, rest)
  | None => None
  end.

(** *** Values *)

Definition orelse {A : Type} (x : option A) (y : option A) : option A :=
  match x with
  | Some _ => x
  | None => y
  end.

Definition scan_word (w : string) (v : pyval) (s : string) : option (pyval * string) :=
  match strip_prefix w s with
  | Some r => Some (v, r)
  | None => None
  end.

(** The values that hold no other value, in the order the scanner tries
    them. *)
Definition scan_atom (s : string) : option (pyval * string) :=
  match eat dquote s with
  | Some r =>
      match scanstring r with
      | Some (t, r') => Some (PyStr t, r')
      | None => None
      end
  | None =>
      orelse (scan_word "null" PyNone s)
     (orelse (scan_word "true" (PyBool true) s)
     (orelse (scan_word "false" (PyBool false) s)
     (orelse (scan_number s)
     (orelse (scan_word "NaN" (PyFloat float_nan) s)
     (orelse (scan_word "Infinity" (PyFloat float_inf) s)
             (scan_word "-Infinity" (PyFloat float_neg_inf) s))))))
  end.

(** What follows a member of an object or an element of an array. *)
Inductive delimiter : Type :=
| Close (rest : string)
| Comma (rest : string)
| Neither.

Definition delimiter_at (close : ascii) (s : string) : delimiter :=
  match eat close s with
  | Some r => Close r
  | None =>
      match eat "," s with
      | Some r => Comma r
      | None => Neither
      end
  end.

(** [scan_once] reads one value at the head of the text; [scan_members]
    reads the members of an object from its first key on, [scan_elements] the
    elements of an array from its first element on.  The recursion of the
    scanner is on the nesting of the text; [fuel] bounds it. *)
Fixpoint scan_once (fuel : nat) (s : string) : scan pyval :=
  match fuel with
  | O => Exhausted
  | S fuel' =>
      match eat "{" s with
      | Some r =>
          match eat "}" (skip_ws r) with
          | Some r' => Scanned (PyDict []) r'
          | None => scan_members fuel' [] (skip_ws r)
          end
      | None =>
          match eat "[" s with
          | Some r =>
              match eat "]" (skip_ws r) with
              | Some r' => Scanned (PyList []) r'
              | None => scan_elements fuel' [] (skip_ws r)
              end
          | None =>
              match scan_atom s with
              | Some (v, r) => Scanned v r
              | None => Malformed
              end
          end
      end
  end

with scan_members (fuel : nat) (acc : list (string * pyval)) (s : string) : scan pyval :=
  match fuel with
  | O => Exhausted
  | S fuel' =>
      match eat dquote s with
      | None => Malformed
      | Some r =>
          match scanstring r with
          | None => Malformed
          | Some (key, r1) =>
              match eat ":" (skip_ws r1) with
              | None => Malformed
              | Some r2 =>
                  match scan_once fuel' (skip_ws r2) with
                  | Scanned value r3 =>
                      match delimiter_at "}" (skip_ws r3) with
                      | Close r4 => Scanned (PyDict (dict_set key value acc)) r4
                      | Comma r4 =>
                          scan_members fuel' (dict_set key value acc) (skip_ws r4)
                      | Neither => Malformed
                      end
                  | Malformed => Malformed
                  | Exhausted => Exhausted
                  end
              end
          end
      end
  end

with scan_elements (fuel : nat) (acc : list pyval) (s : string) : scan pyval :=
  match fuel with
  | O => Exhausted
  | S fuel' =>
      match scan_once fuel' s with
      | Scanned value r =>
          match delimiter_at "]" (skip_ws r) with
          | Close r' => Scanned (PyList (rev (value :: acc))) r'
          | Comma r' => scan_elements fuel' (value :: acc) (skip_ws r')
          | Neither => Malformed
          end
      | Malformed => Malformed
      | Exhausted => Exhausted
      end
  end.

(** Enough fuel for any text (lemma [json_loads_fuel]). *)
Definition fuel_for (s : string) : nat := 2 * String.length s + 1.

(** [json.loads(s)]: one value, with whitespace around it and nothing else. *)
Definition json_loads (s : string) : result pyval :=
  match scan_once (fuel_for s) (skip_ws s) with
  | Scanned v r =>
      match skip_ws r with
      | EmptyString => Ok v
      | _ => Raise (JSONDecodeError (decode_error_text s))
      end
  | _ => Raise (JSONDecodeError (decode_error_text s))
  end.

End Decoder.

(** ** [json.dumps] *)

Section Encoder.
Context {RT : Runtime}.

Definition hex_char (n : N) : ascii :=
  if (n <? 10)%N then chr (48 + n) else chr (87 + n).

(** [\uXXXX] with four lower-case hexadecimal digits. *)
Definition u_escape (u : N) : string :=
  String (chr 92) (String (chr 117)
    (String (hex_char ((u / 4096) mod 16))
       (String (hex_char ((u / 256) mod 16))
          (String (hex_char ((u / 16) mod 16))
             (String (hex_char (u mod 16)) EmptyString)))))%N.

(** A code point above the basic plane is written as a surrogate pair. *)
Definition u_escape_point (u : N) : string :=
  (if u <? 65536 then u_escape u
   else u_escape (55296 + ((u - 65536) / 1024) mod 1024)
          ++ u_escape (56320 + (u - 65536) mod 1024))%N.

Definition backslash (c : N) : string := String (chr 92) (String (chr c) EmptyString).

(** One ASCII character inside a string literal. *)
Definition escape_ascii (ensure_ascii : bool) (c : ascii) : string :=
  let n := code c in
  (if n =? 34 then backslash 34
   else if n =? 92 then backslash 92
   else if n =? 10 then backslash 110
   else if n =? 13 then backslash 114
   else if n =? 9 then backslash 116
   else if n =? 8 then backslash 98
   else if n =? 12 then backslash 102
   else if n <? 32 then u_escape n
   else if (n =? 127) && ensure_ascii then u_escape n
   else String c EmptyString)%N.

(** The inside of a string literal.  With [ensure_ascii] a character outside
    ASCII is decoded from its UTF-8 bytes and escaped; without, its bytes are
    kept. *)
Fixpoint escape_chars (ensure_ascii : bool) (s : string) : string :=
  match s with
  | EmptyString => EmptyString
  | String c r =>
      let n := code c in
      if (n <? 128)%N then escape_ascii ensure_ascii c ++ escape_chars ensure_ascii r
      else if negb ensure_ascii then String c (escape_chars ensure_ascii r)
      else if (n <? 224)%N then
        match r with
        | String c1 r1 =>
            u_escape_point ((n - 192) * 64 + (code c1 - 128))%N
              ++ escape_chars ensure_ascii r1
        | _ => u_escape n ++ escape_chars ensure_ascii r
        end
      else if (n <? 240)%N then
        match r with
        | String c1 (String c2 r2) =>
            u_escape_point
              (((n - 224) * 64 + (code c1 - 128)) * 64 + (code c2 - 128))%N
              ++ escape_chars ensure_ascii r2
        | _ => u_escape n ++ escape_chars ensure_ascii r
        end
      else
        match r with
        | String c1 (String c2 (String c3 r3)) =>
            u_escape_point
              ((((n - 240) * 64 + (code c1 - 128)) * 64 + (code c2 - 128)) * 64
               + (code c3 - 128))%N
              ++ escape_chars ensure_ascii r3
        | _ => u_escape n ++ escape_chars ensure_ascii r
        end
  end.

Definition quote : string := String dquote EmptyString.

Definition encode_str (ensure_ascii : bool) (s : string) : string :=
  quote ++ escape_chars ensure_ascii s ++ quote.

Definition encode_float (allow_nan : bool) (f : pyfloat) : result string :=
  match float_classify f with
  | Finite => Ok (float_repr f)
  | c =>
      if allow_nan
      then Ok match c with NaN => "NaN" | PosInf => "Infinity" | _ => "-Infinity" end
      else Raise (ValueError "Out of range float values are not JSON compliant")
  end.

(** [json.dumps(v, ensure_ascii=..., allow_nan=..., separators=(item_sep,
    key_sep))].  An object that is no JSON value is refused. *)
Fixpoint json_encode (ensure_ascii allow_nan : bool) (item_sep key_sep : string)
  (v : pyval) {struct v} : result string :=
  match v with
  | PyNone => Ok "null"
  | PyBool true => Ok "true"
  | PyBool false => Ok "false"
  | PyInt z => Ok (str_of_Z z)
  | PyFloat f => encode_float allow_nan f
  | PyStr s => Ok (encode_str ensure_ascii s)
  | PyList l | PyTuple l =>
      items <-
        (fix encode_items (l : list pyval) : result (list string) :=
           match l with
           | [] => Ok []
           | x :: l' =>
               s <- json_encode ensure_ascii allow_nan item_sep key_sep x ;;
               r <- encode_items l' ;;
               Ok (s :: r)
           end) l ;;
      Ok ("[" ++ join item_sep items ++ "]")
  | PyDict d =>
      items <-
        (fix encode_members (d : list (string * pyval)) : result (list string) :=
           match d with
           | [] => Ok []
           | (k, x) :: d' =>
               s <- json_encode ensure_ascii allow_nan item_sep key_sep x ;;
               r <- encode_members d' ;;
               Ok ((encode_str ensure_ascii k ++ key_sep ++ s) :: r)
           end) d ;;
      Ok ("{" ++ join item_sep items ++ "}")
  | PyObj _ =>
      Raise (TypeError ("Object of type " ++ type_name v ++ " is not JSON serializable"))
  end.

(** [json.dumps(v)] with the defaults of the standard library. *)
Definition json_dumps (v : pyval) : result string :=
  json_encode true true ", " ": " v.

End Encoder.

(** ** The [tools] module *)

(** Modelled from the spec: the descriptor a tool advertises,
    [{name, description, inputSchema}]. *)
Module types.
Section Types.
Context {RT : Runtime}.

Record Tool : Type := {
  name : string;
  description : string;
  inputSchema : pyval
}.

End Types.
End types.

(** Modelled from the spec: a tool handler, [{name, describe, invoke}].  The
    handlers themselves are outside the sources: [run_tool] takes the
    arguments and the state of the world, and gives back either a sequence of
    content items (a list, or a tuple) or an exception, with the new state. *)
Module tools.
Section Tools.
Context {RT : Runtime}.

Inductive Sequence : Type :=
| ListOf (items : list ContentItem)
| TupleOf (items : list ContentItem).

Definition items (result : Sequence) : list ContentItem :=
  match result with
  | ListOf l | TupleOf l => l
  end.

(** The sequence as the Python value it is. *)
Definition value (result : Sequence) : pyval :=
  match result with
  | ListOf l => PyList (map PyObj l)
  | TupleOf l => PyTuple (map PyObj l)
  end.

Record ToolHandler : Type := {
  name : string;
  get_tool_description : types.Tool;
  run_tool : pyval -> World -> result Sequence * World
}.

(** The thirteen handler classes the gateway instantiates at start-up. *)
Record module : Type := {
  ListFilesInDirToolHandler : ToolHandler;
  ListFilesInVaultToolHandler : ToolHandler;
  GetFileContentsToolHandler : ToolHandler;
  SearchToolHandler : ToolHandler;
  PatchContentToolHandler : ToolHandler;
  AppendContentToolHandler : ToolHandler;
  PutContentToolHandler : ToolHandler;
  DeleteFileToolHandler : ToolHandler;
  ComplexSearchToolHandler : ToolHandler;
  BatchGetFileContentsToolHandler : ToolHandler;
  PeriodicNotesToolHandler : ToolHandler;
  RecentPeriodicNotesToolHandler : ToolHandler;
  RecentChangesToolHandler : ToolHandler
}.

End Tools.
End tools.

(** ** Effects of a request handler *)

Section Effects.
Context {RT : Runtime}.

(** A handler runs against the world, and may raise.  [calls] records, in
    order, every invocation of a tool: its registered name and the arguments
    it was given. *)
Record state : Type := {
  world : World;
  calls : list (string * pyval)
}.

Definition M (A : Type) : Type := state -> result A * state.

#[export] Instance M_monad : Monad M := {
  ret := fun A a st => (Ok a, st);
  bind := fun A B c k st =>
    match c st with
    | (Ok a, st') => k a st'
    | (Raise e, st') => (Raise e, st')
    end
}.

Definition lift {A : Type} (r : result A) : M A := fun st => (r, st).

Definition raise {A : Type} (e : exn) : M A := lift (Raise e).

(** [try: body / except Exception as e: handler e] *)
Definition try_except {A : Type} (body : M A) (handler : exn -> M A) : M A :=
  fun st =>
    match body st with
    | (Ok a, st') => (Ok a, st')
    | (Raise e, st') => handler e st'
    end.

(** [handler.run_tool(arguments)] *)
Definition invoke (handler : tools.ToolHandler) (arguments : pyval) : M tools.Sequence :=
  fun st =>
    let (r, w) := tools.run_tool handler arguments (world st) in
    (r, {| world := w; calls := (calls st ++ [(tools.name handler, arguments)])%list |}).

End Effects.

(** ** The gateway *)

Section Responses.
Context {RT : Runtime}.

Record Response : Type := {
  status_code : Z;
  content : pyval;
  body : string
}.

(** Starlette renders the content when the response is built, with compact
    separators, without ASCII escaping and without the float constants that
    are not JSON; what cannot be rendered raises there. *)
Definition render (content : pyval) : result string :=
  json_encode false false "," ":" content.

Definition JSONResponse (status_code : Z) (content : pyval) : result Response :=
  body <- render content ;;
  Ok {| status_code := status_code; content := content; body := body |}.

(** What FastAPI answers when an exception leaves a handler: the status and
    the detail of an [HTTPException], an internal server error otherwise. *)
Definition exception_response (e : exn) : Response :=
  match e with
  | HTTPException status_code detail =>
      {| status_code := status_code;
         content := PyDict [("detail", PyStr detail)];
         body := "{" ++ encode_str false "detail" ++ ":" ++ encode_str false detail ++ "}" |}
  | _ =>
      {| status_code := 500;
         content := PyStr "Internal Server Error";
         body := "Internal Server Error" |}
  end.

Definition respond (r : result Response) : Response :=
  match r with
  | Ok response => response
  | Raise e => exception_response e
  end.

Definition serve (handler : M Response) (st : state) : Response * state :=
  let (r, st') := handler st in (respond r, st').

Record ToolCallRequest : Type := {
  name : string;
  arguments : list (string * pyval)
}.

(** A request as [sse_call_tool] sees it: the text of its body. *)
Record Request : Type := {
  raw_body : string
}.

(** [await request.json()] *)
Definition request_json (request : Request) : result pyval :=
  json_loads (raw_body request).

Definition registry : Type := list (string * tools.ToolHandler).

(** [tool_handlers[tool_class.name] = tool_class] *)
Definition add_tool_handler (tool_handlers : registry) (tool_class : tools.ToolHandler)
  : registry :=
  dict_set (tools.name tool_class) tool_class tool_handlers.

(** The registry once the module is loaded: thirteen registrations, in this
    order, on an empty dict. *)
Definition registered (t : tools.module) : registry :=
  fold_left add_tool_handler
    [ tools.ListFilesInDirToolHandler t;
      tools.ListFilesInVaultToolHandler t;
      tools.GetFileContentsToolHandler t;
      tools.SearchToolHandler t;
      tools.PatchContentToolHandler t;
      tools.AppendContentToolHandler t;
      tools.PutContentToolHandler t;
      tools.DeleteFileToolHandler t;
      tools.ComplexSearchToolHandler t;
      tools.BatchGetFileContentsToolHandler t;
      tools.PeriodicNotesToolHandler t;
      tools.RecentPeriodicNotesToolHandler t;
      tools.RecentChangesToolHandler t ]
    [].

(** [tool_handlers[k]] *)
Definition getitem (tool_handlers : registry) (k : pyval) : result tools.ToolHandler :=
  if hashable k
  then match k with
       | PyStr s =>
           match dict_lookup s tool_handlers with
           | Some handler => Ok handler
           | None => Raise (KeyError (str_repr s))
           end
       | _ => Raise (KeyError (py_repr k))
       end
  else Raise (unhashable k).

Definition LF : string := String (chr 10) EmptyString.

End Responses.

Section Gateway.
Context {RT : Runtime}.

(** The module-level dict, read by every handler and never written after
    start-up. *)
Variable tool_handlers : registry.

(** The list both listings build (lines 81-88 and 194-201). *)
Definition tools_list : list pyval :=
  map (fun entry : string * tools.ToolHandler =>
         let tool_desc := tools.get_tool_description (snd entry) in
         PyDict [ ("name", PyStr (types.name tool_desc));
                  ("description", PyStr (types.description tool_desc));
                  ("inputSchema", types.inputSchema tool_desc) ])
      tool_handlers.

(** GET /tools/list *)
Definition list_tools : M pyval :=
  ret (PyDict [("tools", PyList tools_list)]).

(** Lines 118-128 of [call_tool]: the first item's text, parsed when it
    parses, the result as it is otherwise. *)
Definition call_tool_result_data (result : tools.Sequence) : pyval :=
  match tools.items result with
  | TextContent result_text :: _ =>
      match json_loads result_text with
      | Ok result_data => result_data
      | Raise _ => PyStr result_text
      end
  | _ => tools.value result
  end.

(** POST /tools/call *)
Definition call_tool (request : ToolCallRequest) : M Response :=
  try_except
    (present <- lift (key_in (PyStr (name request)) tool_handlers) ;;
     if negb present then
       raise (HTTPException 404
                ("Tool '" ++ name request ++ "' not found. Available tools: "
                 ++ py_str (PyList (map PyStr (dict_keys tool_handlers)))))
     else
       handler <- lift (getitem tool_handlers (PyStr (name request))) ;;
       result <- invoke handler (PyDict (arguments request)) ;;
       let result_data := call_tool_result_data result in
       lift (JSONResponse 200
               (PyDict [ ("success", PyBool true);
                         ("tool", PyStr (name request));
                         ("result", result_data) ])))
    (fun e =>
       match e with
       | HTTPException _ _ => raise e
       | _ => raise (HTTPException 500 (exn_str e))
       end).

(** *** GET /sse *)

(** One turn of the keep-alive loop, as the connection decides it: what
    [request.is_disconnected()] gives, and what [asyncio.sleep(1)] gives when
    it is reached. *)
Record turn : Type := {
  is_disconnected : result bool;
  sleep : result unit
}.

(** How the loop stands when the turns are used up. *)
Inductive loop_end : Type :=
| Waiting
| Broken
| Raised (e : exn).

Definition keep_alive : string := ": keep-alive" ++ LF ++ LF.

Fixpoint keep_alive_loop (turns : list turn) : list string * loop_end :=
  match turns with
  | [] => ([], Waiting)
  | t :: turns' =>
      match is_disconnected t with
      | Raise e => ([], Raised e)
      | Ok true => ([], Broken)
      | Ok false =>
          match sleep t with
          | Raise e => ([], Raised e)
          | Ok _ =>
              let (frames, e) := keep_alive_loop turns' in
              (keep_alive :: frames, e)
          end
      end
  end.

Inductive stream_end : Type :=
| Open
| Closed
| Aborted (e : exn).

Definition data_frame (v : pyval) : result string :=
  s <- json_dumps v ;; Ok ("data: " ++ s ++ LF ++ LF).

(** The [except] clause of the generator: one error event, and the end. *)
Definition error_event (frames : list string) (e : exn) : list string * stream_end :=
  match data_frame (PyDict [("type", PyStr "error"); ("message", PyStr (exn_str e))]) with
  | Ok frame => ((frames ++ [frame])%list, Closed)
  | Raise e' => (frames, Aborted e')
  end.

(** The frames the generator yields along the given turns, and how it stands
    after them. *)
Definition event_generator (turns : list turn) : list string * stream_end :=
  match data_frame (PyDict [("type", PyStr "connection"); ("status", PyStr "connected")]) with
  | Raise e => error_event [] e
  | Ok hello =>
      let (frames, e) := keep_alive_loop turns in
      match e with
      | Waiting => (hello :: frames, Open)
      | Broken => (hello :: frames, Closed)
      | Raised e => error_event (hello :: frames) e
      end
  end.

Record StreamingResponse : Type := {
  events : list turn -> list string * stream_end;
  media_type : string;
  headers : list (string * string)
}.

Definition sse_endpoint (request : Request) : M StreamingResponse :=
  ret {| events := event_generator;
         media_type := "text/event-stream";
         headers := [ ("Cache-Control", "no-cache");
                      ("Connection", "keep-alive");
                      ("X-Accel-Buffering", "no") ] |}.

(** *** POST /sse *)

(** Lines 229-237 of [sse_call_tool]. *)
Definition sse_result_data (result : tools.Sequence) : pyval :=
  match tools.items result with
  | TextContent result_text :: _ =>
      match json_loads result_text with
      | Ok result_data => result_data
      | Raise _ => PyStr result_text
      end
  | _ => tools.value result
  end.

Definition jsonrpc_result (request_id result : pyval) : pyval :=
  PyDict [("jsonrpc", PyStr "2.0"); ("id", request_id); ("result", result)].

Definition jsonrpc_error (request_id : pyval) (code : Z) (message : string) : pyval :=
  PyDict [ ("jsonrpc", PyStr "2.0"); ("id", request_id);
           ("error", PyDict [("code", PyInt code); ("message", PyStr message)]) ].

(** The envelope of line 296, which has no id. *)
Definition internal_error (e : exn) : pyval :=
  PyDict [ ("jsonrpc", PyStr "2.0");
           ("error", PyDict [("code", PyInt (-32603)); ("message", PyStr (exn_str e))]) ].

(** The result of a tool call (lines 242-249): one text item. *)
Definition tool_content (text : pyval) : pyval :=
  PyDict [("content", PyList [PyDict [("type", PyStr "text"); ("text", text)]])].

(** The JSON-RPC 2.0 branch (lines 188-280). *)
Definition sse_jsonrpc (body : pyval) : M Response :=
  method <- lift (py_get body "method" (PyStr EmptyString)) ;;
  params <- lift (py_get body "params" (PyDict [])) ;;
  request_id <- lift (py_get body "id" PyNone) ;;
  if py_eq_str method "tools/list" then
    lift (JSONResponse 200
            (jsonrpc_result request_id (PyDict [("tools", PyList tools_list)])))
  else if py_eq_str method "tools/call" then
    tool_name <- lift (py_get params "name" PyNone) ;;
    arguments <- lift (py_get params "arguments" (PyDict [])) ;;
    present <- lift (key_in tool_name tool_handlers) ;;
    if negb present then
      lift (JSONResponse 200
              (jsonrpc_error request_id (-32601) ("Tool not found: " ++ py_str tool_name)))
    else
      handler <- lift (getitem tool_handlers tool_name) ;;
      result <- invoke handler arguments ;;
      let result_data := sse_result_data result in
      text <- (if is_dict_or_list result_data
               then s <- lift (json_dumps result_data) ;; ret (PyStr s)
               else ret result_data) ;;
      lift (JSONResponse 200 (jsonrpc_result request_id (tool_content text)))
  else if py_eq_str method "initialize" then
    lift (JSONResponse 200
            (jsonrpc_result request_id
               (PyDict [ ("protocolVersion", PyStr "2024-11-05");
                         ("capabilities", PyDict [("tools", PyDict [])]);
                         ("serverInfo",
                          PyDict [("name", PyStr "mcp-obsidian");
                                  ("version", PyStr "0.2.1")]) ])))
  else
    lift (JSONResponse 200
            (jsonrpc_error request_id (-32601) ("Method not found: " ++ py_str method))).

(** The simple format (lines 282-292). *)
Definition sse_fallback (body : pyval) : M Response :=
  tool_name <- lift (py_get body "name" PyNone) ;;
  arguments <- lift (py_get body "arguments" (PyDict [])) ;;
  present <- lift (key_in tool_name tool_handlers) ;;
  if negb present then
    raise (HTTPException 404 ("Tool not found: " ++ py_str tool_name))
  else
    handler <- lift (getitem tool_handlers tool_name) ;;
    result <- invoke handler arguments ;;
    lift (JSONResponse 200
            (PyDict [("success", PyBool true); ("result", tools.value result)])).

(** The body of the [try] (lines 184-292). *)
Definition sse_dispatch (request : Request) : M Response :=
  body <- lift (request_json request) ;;
  has_version <- lift (py_in "jsonrpc" body) ;;
  is_jsonrpc <- (if has_version
                 then version <- lift (py_getitem body "jsonrpc") ;;
                      ret (py_eq_str version "2.0")
                 else ret false) ;;
  if is_jsonrpc then sse_jsonrpc body else sse_fallback body.

Definition sse_call_tool (request : Request) : M Response :=
  try_except
    (sse_dispatch request)
    (fun e => lift (JSONResponse 500 (internal_error e))).

(** *** Vocabulary of the statements *)

(** The member [k] of a JSON object, when the value is an object that has
    it. *)
Definition member (k : string) (v : pyval) : option pyval :=
  match v with
  | PyDict d => dict_lookup k d
  | _ => None
  end.

(** The text member of the item of a tool call, for a canonical result
    (line 246): its JSON encoding when it is a dict or a list, itself
    otherwise. *)
Definition text_item (result_data text : pyval) : Prop :=
  if is_dict_or_list result_data
  then exists s, json_dumps result_data = Ok s /\ text = PyStr s
  else text = result_data.

(** The first frame of the stream, as it goes on the wire. *)
Definition connection_event : string :=
  dq "data: {'type': 'connection', 'status': 'connected'}" ++ LF ++ LF.

(** The turns of the keep-alive loop in which the client is connected and the
    sleep ends. *)
Definition alive (t : turn) : Prop :=
  is_disconnected t = Ok false /\ exists u, sleep t = Ok u.

(** A turn in which the loop raises [e]: from the check, or from the sleep
    after a check that found the client connected. *)
Definition raises (t : turn) (e : exn) : Prop :=
  is_disconnected t = Raise e \/
  (is_disconnected t = Ok false /\ sleep t = Raise e).

End Gateway.

(** ** An instance to run the gateway on *)

(** A runtime in which a float is known by the literal it was read from, a
    string is printed between single quotes, and the world has one state. *)
Definition demo_runtime : Runtime := {|
  World := unit;
  pyfloat := string;
  float_of_literal := fun s => s;
  float_nan := "nan";
  float_inf := "inf";
  float_neg_inf := "-inf";
  float_repr := fun s => s;
  float_classify := fun s =>
    if String.eqb s "nan" then NaN
    else if String.eqb s "inf" then PosInf
    else if String.eqb s "-inf" then NegInf
    else Finite;
  str_repr := fun s => "'" ++ s ++ "'";
  object_repr := fun c =>
    match c with
    | TextContent text => "TextContent(type='text', text='" ++ text ++ "')"
    | OpaqueContent class_name => class_name ++ "()"
    end;
  decode_error_text := fun _ => "Expecting value"
|}.

Section Demo.
#[local] Existing Instance demo_runtime.

(** A handler that gives the same outcome whatever it is asked. *)
Definition demo_handler (name : string) (outcome : result tools.Sequence)
  : tools.ToolHandler := {|
  tools.name := name;
  tools.get_tool_description := {|
    types.name := name;
    types.description := EmptyString;
    types.inputSchema := PyDict [("type", PyStr "object")]
  |};
  tools.run_tool := fun _ w => (outcome, w)
|}.

Definition text_result (text : string) : result tools.Sequence :=
  Ok (tools.ListOf [TextContent text]).

Definition demo_tools : tools.module := {|
  tools.ListFilesInDirToolHandler :=
    demo_handler "obsidian_list_files_in_dir" (text_result (dq "['a.md', 'b.md']"));
  tools.ListFilesInVaultToolHandler :=
    demo_handler "obsidian_list_files_in_vault" (text_result (dq "['a.md', 'b.md']"));
  tools.GetFileContentsToolHandler :=
    demo_handler "obsidian_get_file_contents" (text_result "plain");
  tools.SearchToolHandler :=
    demo_handler "obsidian_simple_search" (text_result (dq "{'a':1}"));
  tools.PatchContentToolHandler :=
    demo_handler "obsidian_patch_content" (text_result "42");
  tools.AppendContentToolHandler :=
    demo_handler "obsidian_append_content" (text_result "null");
  tools.PutContentToolHandler :=
    demo_handler "obsidian_put_content" (text_result "true");
  tools.DeleteFileToolHandler :=
    demo_handler "obsidian_delete_file" (Raise (ToolError "Error 40400: Not Found"));
  tools.ComplexSearchToolHandler :=
    demo_handler "obsidian_complex_search" (Ok (tools.ListOf []));
  tools.BatchGetFileContentsToolHandler :=
    demo_handler "obsidian_batch_get_file_contents" (Ok (tools.TupleOf []));
  tools.PeriodicNotesToolHandler :=
    demo_handler "obsidian_get_periodic_note"
      (Ok (tools.ListOf [OpaqueContent "ImageContent"]));
  tools.RecentPeriodicNotesToolHandler :=
    demo_handler "obsidian_get_recent_periodic_notes"
      (Ok (tools.TupleOf [OpaqueContent "EmbeddedResource"]));
  tools.RecentChangesToolHandler :=
    demo_handler "obsidian_get_recent_changes"
      (Ok (tools.ListOf [TextContent (dq "{'a':1}"); TextContent "ignored"]))
|}.

Definition demo_handlers : registry := registered demo_tools.

Definition start : state := {| world := tt; calls := [] |}.

Definition post (text : string) : Request := {| raw_body := text |}.

(** A tools/call envelope with the given id and name, both as JSON texts,
    and the body the decoder reads from it. *)
Definition call_of (id name : string) : Request :=
  post (dq "{'jsonrpc':'2.0','id':" ++ id ++ dq ",'method':'tools/call','params':{'name':"
        ++ name ++ dq ",'arguments':{}}}").

Definition body_of (id name : pyval) : pydict :=
  [ ("jsonrpc", PyStr "2.0"); ("id", id); ("method", PyStr "tools/call");
    ("params", PyDict [("name", name); ("arguments", PyDict [])]) ].

(** The same call in the simple format. *)
Definition simple_of (name : string) : Request :=
  post (dq "{'name':" ++ name ++ dq ",'arguments':{}}").

(** The state after one call of the tool [name] with no arguments. *)
Definition after (name : string) : state :=
  {| world := tt; calls := [(name, PyDict [])] |}.

Definition always_alive : turn := {| is_disconnected := Ok false; sleep := Ok tt |}.

Definition gone : turn := {| is_disconnected := Ok true; sleep := Ok tt |}.

End Demo.

(** ** More vocabulary *)

Section Vocabulary.
Context {RT : Runtime}.

(** The handler instances in the order lines 38-50 register them. *)
Definition instances (t : tools.module) : list tools.ToolHandler :=
  [ tools.ListFilesInDirToolHandler t;
    tools.ListFilesInVaultToolHandler t;
    tools.GetFileContentsToolHandler t;
    tools.SearchToolHandler t;
    tools.PatchContentToolHandler t;
    tools.AppendContentToolHandler t;
    tools.PutContentToolHandler t;
    tools.DeleteFileToolHandler t;
    tools.ComplexSearchToolHandler t;
    tools.BatchGetFileContentsToolHandler t;
    tools.PeriodicNotesToolHandler t;
    tools.RecentPeriodicNotesToolHandler t;
    tools.RecentChangesToolHandler t ].

(** The two [except] clauses of [call_tool] (lines 136-140): an HTTP error
    goes on as it is, anything else becomes the HTTP error 500 with the text
    of the exception for detail. *)
Definition as_http_error (e : exn) : exn :=
  match e with
  | HTTPException _ _ => e
  | _ => HTTPException 500 (exn_str e)
  end.

(** The content of the answer of [call_tool] (lines 130-134). *)
Definition call_tool_content (name : string) (result_data : pyval) : pyval :=
  PyDict [("success", PyBool true); ("tool", PyStr name); ("result", result_data)].

(** The result of initialize (lines 257-266). *)
Definition initialize_result : pyval :=
  PyDict [ ("protocolVersion", PyStr "2024-11-05");
           ("capabilities", PyDict [("tools", PyDict [])]);
           ("serverInfo",
            PyDict [("name", PyStr "mcp-obsidian"); ("version", PyStr "0.2.1")]) ].

(** The state after [handler] has run once on [arguments], leaving the
    world in [w]. *)
Definition ran (st : state) (handler : tools.ToolHandler) (arguments : pyval) (w : World)
  : state :=
  {| world := w; calls := (calls st ++ [(tools.name handler, arguments)])%list |}.

(** Between [st] and [st'] one tool of the registry has run, once, on
    [arguments], and nothing else has. *)
Definition ran_once (tool_handlers : registry) (arguments : pyval) (st st' : state) : Prop :=
  exists k handler r,
    dict_lookup k tool_handlers = Some handler /\
    tools.run_tool handler arguments (world st) = (r, world st') /\
    calls st' = (calls st ++ [(tools.name handler, arguments)])%list.

(** The elements of a list encoded in order, up to the first that is
    refused. *)
Fixpoint encode_all (encode : pyval -> result string) (l : list pyval)
  : result (list string) :=
  match l with
  | [] => Ok []
  | x :: l' =>
      s <- encode x ;;
      r <- encode_all encode l' ;;
      Ok (s :: r)
  end.

End Vocabulary.

(** * Properties *)

(** One step of a handler: the monad, and the operators that decide on the
    shape of a value. *)
Tactic Notation "step" :=
  cbn [bind ret M_monad lift raise py_get py_in py_getitem py_eq_str
       String.eqb Ascii.eqb Bool.eqb negb].
Tactic Notation "step" "in" hyp(H) :=
  cbn [bind ret M_monad lift raise py_get py_in py_getitem py_eq_str
       String.eqb Ascii.eqb Bool.eqb negb] in H.

(** ** Strings and dictionaries *)




Lemma dict_get_found {V : Type} (k : string) (d : list (string * V)) (default v : V) :
  dict_lookup k d = Some v -> dict_get k d default = v.
Proof. unfold dict_get. intros ->. reflexivity. Qed.


(** ** The decoder never wants fuel *)

Section DecoderFacts.
Context {RT : Runtime}.

Lemma skip_ws_length (s : string) : (String.length (skip_ws s) <= String.length s)%nat.
Proof.
  induction s as [| c s IH]; cbn; [lia |].
  destruct (is_ws c); cbn; lia.
Qed.

Lemma eat_length (c : ascii) (s r : string) :
  eat c s = Some r -> String.length s = S (String.length r).
Proof.
  destruct s as [| a s]; cbn; [discriminate |].
  destruct (Ascii.eqb a c); [| discriminate]. intros H. inversion H. reflexivity.
Qed.

Lemma strip_prefix_length (p s r : string) :
  strip_prefix p s = Some r -> String.length s = (String.length p + String.length r)%nat.
Proof.
  revert s. induction p as [| a p IH]; intros s; cbn.
  - intros H. inversion H. reflexivity.
  - destruct s as [| b s]; [discriminate |].
    destruct (Ascii.eqb a b); [| discriminate]. intros H. cbn. rewrite (IH _ H). reflexivity.
Qed.

Lemma span_digits_length (s : string) :
  (String.length (snd (span_digits s)) <= String.length s)%nat.
Proof.
  induction s as [| c s IH]; cbn; [lia |].
  destruct (is_digit c); cbn; [| lia].
  destruct (span_digits s) as [d r]. cbn in *. lia.
Qed.

Lemma scan_integer_length (s t r : string) :
  scan_integer s = Some (t, r) -> (String.length r < String.length s)%nat.
Proof.
  unfold scan_integer.
  assert (H : forall s1 sign, (String.length s1 <= String.length s)%nat ->
            match s1 with
            | String c r0 =>
                if Ascii.eqb c "0" then Some (sign ++ "0", r0)
                else if is_digit c
                     then let (d, r') := span_digits r0 in Some (sign ++ String c d, r')
                     else None
            | EmptyString => None
            end = Some (t, r) -> (String.length r < String.length s)%nat).
  { intros s1 sign Hle. destruct s1 as [| c r0]; [discriminate |]. cbn in Hle.
    destruct (Ascii.eqb c "0").
    - intros E. inversion E. subst. lia.
    - destruct (is_digit c); [| discriminate].
      pose proof (span_digits_length r0) as Hs.
      destruct (span_digits r0) as [d r']. cbn in Hs. intros E. inversion E. subst. lia. }
  destruct (eat "-" s) as [r0 |] eqn:E.
  - apply eat_length in E. apply H. lia.
  - apply H. lia.
Qed.

Lemma scan_frac_length (s : string) :
  (String.length (snd (scan_frac s)) <= String.length s)%nat.
Proof.
  unfold scan_frac. destruct (eat "." s) as [r |] eqn:E; [| cbn; lia].
  apply eat_length in E. pose proof (span_digits_length r) as Hs.
  destruct (span_digits r) as [[| c d] r']; cbn in *; lia.
Qed.

Lemma scan_sign_length (s : string) :
  (String.length (snd (scan_sign s)) <= String.length s)%nat.
Proof.
  unfold scan_sign. destruct (eat "+" s) as [r |] eqn:E.
  - apply eat_length in E. cbn. lia.
  - destruct (eat "-" s) as [r |] eqn:E'; cbn; [apply eat_length in E' |]; lia.
Qed.

Lemma scan_exp_length (s : string) :
  (String.length (snd (scan_exp s)) <= String.length s)%nat.
Proof.
  unfold scan_exp. destruct s as [| e r]; [cbn; lia |].
  destruct (Ascii.eqb e "e" || Ascii.eqb e "E"); [| cbn; lia].
  pose proof (scan_sign_length r) as Hs. destruct (scan_sign r) as [sign r1].
  pose proof (span_digits_length r1) as Hd.
  destruct (span_digits r1) as [[| c d] r']; cbn in *; lia.
Qed.

Lemma scan_number_length (s : string) (v : pyval) (r : string) :
  scan_number s = Some (v, r) -> (String.length r < String.length s)%nat.
Proof.
  unfold scan_number. destruct (scan_integer s) as [[integer r0] |] eqn:E; [| discriminate].
  apply scan_integer_length in E.
  pose proof (scan_frac_length r0) as Hf. destruct (scan_frac r0) as [frac r1].
  pose proof (scan_exp_length r1) as He. destruct (scan_exp r1) as [exp r2].
  cbn in Hf, He.
  destruct frac, exp; intros H; inversion H; subst; lia.
Qed.

Lemma scan_units_length (s : string) (l : list strunit) (r : string) :
  scan_units s = Some (l, r) -> (String.length r < String.length s)%nat.
Proof.
  remember (String.length s) as n eqn:Hn.
  revert s l r Hn. induction n as [n IH] using lt_wf_ind. intros s l r Hn.
  destruct s as [| c s]; [discriminate |]. cbn [scan_units].
  assert (Hcons : forall u s', (String.length s' < n)%nat ->
            cons_unit u (scan_units s') = Some (l, r) -> (String.length r < n)%nat).
  { intros u s' Hlt. destruct (scan_units s') as [[l' r'] |] eqn:E; [| discriminate].
    cbn. intros H. inversion H. subst r'.
    pose proof (IH _ Hlt _ _ _ eq_refl E). lia. }
  cbn in Hn.
  destruct (code c =? 34)%N.
  { intros H. inversion H. subst. cbn. lia. }
  destruct (code c =? 92)%N.
  { destruct s as [| e r1]; [discriminate |]. cbn in Hn.
    destruct (simple_escape e).
    - apply Hcons. lia.
    - destruct (code e =? 117)%N; [| discriminate].
      destruct r1 as [| h1 [| h2 [| h3 [| h4 r2]]]]; try discriminate.
      destruct (hex4 h1 h2 h3 h4); [| discriminate].
      apply Hcons. cbn in Hn. lia. }
  destruct (code c <? 32)%N; [discriminate |].
  intros H. subst n. eapply Hcons; [| exact H]. lia.
Qed.

Lemma scanstring_length (s t r : string) :
  scanstring s = Some (t, r) -> (String.length r < String.length s)%nat.
Proof.
  unfold scanstring. destruct (scan_units s) as [[l r'] |] eqn:E; [| discriminate].
  intros H. inversion H. subst. eapply scan_units_length. exact E.
Qed.

Lemma scan_word_length (w : string) (v0 v : pyval) (s r : string) :
  scan_word w v0 s = Some (v, r) ->
  String.length s = (String.length w + String.length r)%nat.
Proof.
  unfold scan_word. destruct (strip_prefix w s) as [r' |] eqn:E; [| discriminate].
  intros H. inversion H. subst. apply strip_prefix_length. exact E.
Qed.

Lemma scan_atom_length (s : string) (v : pyval) (r : string) :
  scan_atom s = Some (v, r) -> (String.length r < String.length s)%nat.
Proof.
  unfold scan_atom. destruct (eat dquote s) as [r0 |] eqn:E.
  - apply eat_length in E.
    destruct (scanstring r0) as [[t r'] |] eqn:Es; [| discriminate].
    apply scanstring_length in Es. intros H. inversion H. subst. lia.
  - unfold orelse.
    repeat match goal with
    | |- match scan_word ?w ?v0 s with _ => _ end = _ -> _ =>
        let E := fresh "E" in
        destruct (scan_word w v0 s) as [[? ?] |] eqn:E;
        [ intros H; inversion H; subst; apply scan_word_length in E; cbn in E; lia |]
    | |- match scan_number s with _ => _ end = _ -> _ =>
        let E := fresh "E" in
        destruct (scan_number s) as [[? ?] |] eqn:E;
        [ intros H; inversion H; subst; apply scan_number_length in E; exact E |]
    end.
    intros H. apply scan_word_length in H. cbn in H. lia.
Qed.

Lemma delimiter_close_length (c : ascii) (s r : string) :
  delimiter_at c s = Close r -> String.length s = S (String.length r).
Proof.
  unfold delimiter_at. destruct (eat c s) as [r' |] eqn:E.
  - intros H. inversion H. subst. apply eat_length in E. exact E.
  - destruct (eat "," s); discriminate.
Qed.

Lemma delimiter_comma_length (c : ascii) (s r : string) :
  delimiter_at c s = Comma r -> String.length s = S (String.length r).
Proof.
  unfold delimiter_at. destruct (eat c s) as [r' |] eqn:E; [discriminate |].
  destruct (eat "," s) as [r' |] eqn:E'; [| discriminate].
  intros H. inversion H. subst. apply eat_length in E'. exact E'.
Qed.

(** A scanned value takes at least one character of the text. *)
Lemma scan_length (fuel : nat) :
  (forall s v r, scan_once fuel s = Scanned v r ->
     (String.length r < String.length s)%nat) /\
  (forall acc s v r, scan_members fuel acc s = Scanned v r ->
     (String.length r < String.length s)%nat) /\
  (forall acc s v r, scan_elements fuel acc s = Scanned v r ->
     (String.length r < String.length s)%nat).
Proof.
  induction fuel as [| fuel (IHo & IHm & IHe)].
  - repeat split; intros; discriminate.
  - repeat split.
    + intros s v r. cbn [scan_once].
      destruct (eat "{" s) as [r0 |] eqn:E.
      { apply eat_length in E. pose proof (skip_ws_length r0) as Hw.
        destruct (eat "}" (skip_ws r0)) as [r' |] eqn:E'.
        - apply eat_length in E'. intros H. inversion H. subst. lia.
        - intros H. apply IHm in H. lia. }
      destruct (eat "[" s) as [r0 |] eqn:E0.
      { apply eat_length in E0. pose proof (skip_ws_length r0) as Hw.
        destruct (eat "]" (skip_ws r0)) as [r' |] eqn:E'.
        - apply eat_length in E'. intros H. inversion H. subst. lia.
        - intros H. apply IHe in H. lia. }
      destruct (scan_atom s) as [[v' r'] |] eqn:Ea; [| discriminate].
      intros H. inversion H. subst. eapply scan_atom_length. exact Ea.
    + intros acc s v r. cbn [scan_members].
      destruct (eat dquote s) as [r0 |] eqn:E; [| discriminate]. apply eat_length in E.
      destruct (scanstring r0) as [[key r1] |] eqn:Es; [| discriminate].
      apply scanstring_length in Es. pose proof (skip_ws_length r1) as Hw1.
      destruct (eat ":" (skip_ws r1)) as [r2 |] eqn:Ec; [| discriminate].
      apply eat_length in Ec. pose proof (skip_ws_length r2) as Hw2.
      destruct (scan_once fuel (skip_ws r2)) as [value r3 | |] eqn:Eo; try discriminate.
      apply IHo in Eo. pose proof (skip_ws_length r3) as Hw3.
      destruct (delimiter_at "}" (skip_ws r3)) as [r4 | r4 |] eqn:Ed; try discriminate.
      * apply delimiter_close_length in Ed. intros H. inversion H. subst. lia.
      * apply delimiter_comma_length in Ed. pose proof (skip_ws_length r4) as Hw4.
        intros H. apply IHm in H. lia.
    + intros acc s v r. cbn [scan_elements].
      destruct (scan_once fuel s) as [value r0 | |] eqn:Eo; try discriminate.
      apply IHo in Eo. pose proof (skip_ws_length r0) as Hw.
      destruct (delimiter_at "]" (skip_ws r0)) as [r' | r' |] eqn:Ed; try discriminate.
      * apply delimiter_close_length in Ed. intros H. inversion H. subst. lia.
      * apply delimiter_comma_length in Ed. pose proof (skip_ws_length r') as Hw'.
        intros H. apply IHe in H. lia.
Qed.

(** With twice the length of the text as fuel the scanner never runs out. *)
Lemma scan_fuel (fuel : nat) :
  (forall s, (2 * String.length s < fuel)%nat -> scan_once fuel s <> Exhausted) /\
  (forall acc s, (2 * String.length s + 1 < fuel)%nat ->
     scan_members fuel acc s <> Exhausted) /\
  (forall acc s, (2 * String.length s + 1 < fuel)%nat ->
     scan_elements fuel acc s <> Exhausted).
Proof.
  induction fuel as [| fuel (IHo & IHm & IHe)].
  - repeat split; intros; lia.
  - repeat split.
    + intros s Hf. cbn [scan_once].
      destruct (eat "{" s) as [r0 |] eqn:E.
      { apply eat_length in E. pose proof (skip_ws_length r0) as Hw.
        destruct (eat "}" (skip_ws r0)); [discriminate |]. apply IHm. lia. }
      destruct (eat "[" s) as [r0 |] eqn:E0.
      { apply eat_length in E0. pose proof (skip_ws_length r0) as Hw.
        destruct (eat "]" (skip_ws r0)); [discriminate |]. apply IHe. lia. }
      destruct (scan_atom s) as [[v' r'] |]; discriminate.
    + intros acc s Hf. cbn [scan_members].
      destruct (eat dquote s) as [r0 |] eqn:E; [| discriminate]. apply eat_length in E.
      destruct (scanstring r0) as [[key r1] |] eqn:Es; [| discriminate].
      apply scanstring_length in Es. pose proof (skip_ws_length r1) as Hw1.
      destruct (eat ":" (skip_ws r1)) as [r2 |] eqn:Ec; [| discriminate].
      apply eat_length in Ec. pose proof (skip_ws_length r2) as Hw2.
      destruct (scan_once fuel (skip_ws r2)) as [value r3 | |] eqn:Eo; try discriminate.
      * apply (proj1 (scan_length fuel)) in Eo. pose proof (skip_ws_length r3) as Hw3.
        destruct (delimiter_at "}" (skip_ws r3)) as [r4 | r4 |] eqn:Ed; try discriminate.
        apply delimiter_comma_length in Ed. pose proof (skip_ws_length r4) as Hw4.
        apply IHm. lia.
      * exfalso. revert Eo. apply IHo. lia.
    + intros acc s Hf. cbn [scan_elements].
      destruct (scan_once fuel s) as [value r0 | |] eqn:Eo; try discriminate.
      * apply (proj1 (scan_length fuel)) in Eo. pose proof (skip_ws_length r0) as Hw.
        destruct (delimiter_at "]" (skip_ws r0)) as [r' | r' |] eqn:Ed; try discriminate.
        apply delimiter_comma_length in Ed. pose proof (skip_ws_length r') as Hw'.
        apply IHe. lia.
      * exfalso. revert Eo. apply IHo. lia.
Qed.

(** Fuel beyond what a scan needs does not change it. *)
Lemma scan_more_fuel (fuel : nat) :
  (forall extra s, scan_once fuel s <> Exhausted ->
     scan_once (fuel + extra) s = scan_once fuel s) /\
  (forall extra acc s, scan_members fuel acc s <> Exhausted ->
     scan_members (fuel + extra) acc s = scan_members fuel acc s) /\
  (forall extra acc s, scan_elements fuel acc s <> Exhausted ->
     scan_elements (fuel + extra) acc s = scan_elements fuel acc s).
Proof.
  induction fuel as [| fuel (IHo & IHm & IHe)].
  - repeat split; intros; cbn in *; congruence.
  - repeat split; intros extra.
    + intros s. cbn [scan_once Nat.add].
      destruct (eat "{" s) as [r0 |].
      { destruct (eat "}" (skip_ws r0)); [reflexivity | apply IHm]. }
      destruct (eat "[" s) as [r0 |]; [| reflexivity].
      destruct (eat "]" (skip_ws r0)); [reflexivity | apply IHe].
    + intros acc s. cbn [scan_members Nat.add].
      destruct (eat dquote s) as [r0 |]; [| reflexivity].
      destruct (scanstring r0) as [[key r1] |]; [| reflexivity].
      destruct (eat ":" (skip_ws r1)) as [r2 |]; [| reflexivity].
      destruct (scan_once fuel (skip_ws r2)) as [value r3 | |] eqn:Eo.
      * rewrite (IHo extra), Eo by congruence.
        destruct (delimiter_at "}" (skip_ws r3)); try reflexivity. apply IHm.
      * rewrite (IHo extra), Eo by congruence. reflexivity.
      * congruence.
    + intros acc s. cbn [scan_elements Nat.add].
      destruct (scan_once fuel s) as [value r0 | |] eqn:Eo.
      * rewrite (IHo extra), Eo by congruence.
        destruct (delimiter_at "]" (skip_ws r0)); try reflexivity. apply IHe.
      * rewrite (IHo extra), Eo by congruence. reflexivity.
      * congruence.
Qed.

(** [json_loads] never fails for want of fuel: its scan of any text ends with
    a value or with a syntax error. *)
Lemma json_loads_fuel (s : string) :
  scan_once (fuel_for s) (skip_ws s) <> Exhausted.
Proof.
  apply (proj1 (scan_fuel (fuel_for s))). unfold fuel_for.
  pose proof (skip_ws_length s). lia.
Qed.

(** So the outcome of [json_loads] is the outcome of the scan with any
    larger amount of fuel. *)
Lemma json_loads_any_fuel (s : string) (extra : nat) :
  scan_once (fuel_for s + extra) (skip_ws s) = scan_once (fuel_for s) (skip_ws s).
Proof. apply (proj1 (scan_more_fuel (fuel_for s))), json_loads_fuel. Qed.

End DecoderFacts.

(** ** The monad of the handlers *)

Section MonadFacts.
Context {RT : Runtime}.

Lemma bind_lift_ok {A B : Type} (r : result A) (a : A) (k : A -> M B) (st : state) :
  r = Ok a -> (x <- lift r ;; k x) st = k a st.
Proof. intros ->. reflexivity. Qed.

Lemma bind_ok_inv {A B : Type} (c : M A) (k : A -> M B) (st st' : state) (b : B) :
  (x <- c ;; k x) st = (Ok b, st') ->
  exists a st1, c st = (Ok a, st1) /\ k a st1 = (Ok b, st').
Proof.
  cbn. destruct (c st) as [[a | e] st1]; intros H.
  - exists a, st1. split; [reflexivity | exact H].
  - discriminate H.
Qed.

Lemma lift_ok_inv {A : Type} (r : result A) (a : A) (st st' : state) :
  lift r st = (Ok a, st') -> r = Ok a /\ st' = st.
Proof. unfold lift. intros H. inversion H. split; reflexivity. Qed.

Lemma invoke_inv (handler : tools.ToolHandler) (arguments : pyval)
  (st st' : state) (r : result tools.Sequence) :
  invoke handler arguments st = (r, st') ->
  tools.run_tool handler arguments (world st) = (r, world st') /\
  calls st' = (calls st ++ [(tools.name handler, arguments)])%list.
Proof.
  unfold invoke. destruct (tools.run_tool handler arguments (world st)) as [r0 w].
  intros H. inversion H. subst. split; reflexivity.
Qed.

Lemma JSONResponse_ok_inv (status : Z) (c : pyval) (response : Response) :
  JSONResponse status c = Ok response ->
  status_code response = status /\ content response = c /\ render c = Ok (body response).
Proof.
  unfold JSONResponse. cbn. destruct (render c) as [s | e]; intros H; inversion H.
  cbn. auto.
Qed.

Lemma JSONResponse_ok (status : Z) (c : pyval) (s : string) :
  render c = Ok s ->
  JSONResponse status c = Ok {| status_code := status; content := c; body := s |}.
Proof. unfold JSONResponse. cbn. intros ->. reflexivity. Qed.

Lemma JSONResponse_raise (status : Z) (c : pyval) (e : exn) :
  render c = Raise e -> JSONResponse status c = Raise e.
Proof. unfold JSONResponse. cbn. intros ->. reflexivity. Qed.

Lemma lift_JSONResponse_inv (status : Z) (c : pyval) (response : Response) (st st' : state) :
  lift (JSONResponse status c) st = (Ok response, st') ->
  status_code response = status /\ content response = c /\
  render c = Ok (body response) /\ st' = st.
Proof.
  intros H. apply lift_ok_inv in H as [H ->].
  apply JSONResponse_ok_inv in H. tauto.
Qed.


Lemma render_internal_error (e : exn) : exists b, render (internal_error e) = Ok b.
Proof.
  eexists. unfold render, internal_error. cbn [json_encode bind result_monad]. reflexivity.
Qed.

(** A sequence that holds an item is refused by both encoders, as a list and
    as a tuple. *)
Lemma json_encode_item (ensure_ascii allow_nan : bool) (item_sep key_sep : string)
  (result : tools.Sequence) (c : ContentItem) (rest : list ContentItem) :
  tools.items result = c :: rest ->
  json_encode ensure_ascii allow_nan item_sep key_sep (tools.value result)
  = Raise (TypeError ("Object of type " ++ type_name (PyObj c) ++ " is not JSON serializable")).
Proof. destruct result as [l | l]; cbn; intros ->; reflexivity. Qed.

End MonadFacts.

(** ** POST /sse, branch by branch *)

Section GatewayFacts.
Context {RT : Runtime}.
Variable tool_handlers : registry.



(** The two surfaces that normalise run the same code on the result of a
    tool. *)
Lemma result_data_agree (result : tools.Sequence) :
  sse_result_data result = call_tool_result_data result.
Proof. reflexivity. Qed.

Lemma sse_dispatch_jsonrpc (request : Request) (d : pydict) (st : state) :
  request_json request = Ok (PyDict d) ->
  dict_lookup "jsonrpc" d = Some (PyStr "2.0") ->
  sse_dispatch tool_handlers request st = sse_jsonrpc tool_handlers (PyDict d) st.
Proof.
  intros Hbody Hversion. unfold sse_dispatch.
  rewrite (bind_lift_ok _ _ _ _ Hbody).
  step. unfold dict_mem. rewrite Hversion. step. reflexivity.
Qed.

Lemma sse_dispatch_fallback (request : Request) (d : pydict) (st : state) :
  request_json request = Ok (PyDict d) ->
  (forall v, dict_lookup "jsonrpc" d = Some v -> py_eq_str v "2.0" = false) ->
  sse_dispatch tool_handlers request st = sse_fallback tool_handlers (PyDict d) st.
Proof.
  intros Hbody Hversion. unfold sse_dispatch.
  rewrite (bind_lift_ok _ _ _ _ Hbody).
  step. unfold dict_mem. destruct (dict_lookup "jsonrpc" d) as [v |] eqn:E.
  - step. rewrite (Hversion v eq_refl). reflexivity.
  - reflexivity.
Qed.


(** What a tools/call that is answered by the envelope branch was answered
    with: the error of an unknown tool, or the text item of a result. *)
Lemma sse_jsonrpc_tools_call_inv (d : pydict) (st st' : state) (response : Response) :
  dict_lookup "method" d = Some (PyStr "tools/call") ->
  sse_jsonrpc tool_handlers (PyDict d) st = (Ok response, st') ->
  exists p,
    dict_get "params" d (PyDict []) = PyDict p /\
    let request_id := dict_get "id" d PyNone in
    let tool_name := dict_get "name" p PyNone in
    let arguments := dict_get "arguments" p (PyDict []) in
    status_code response = 200 /\
    render (content response) = Ok (body response) /\
    ((key_in tool_name tool_handlers = Ok false /\
      content response =
        jsonrpc_error request_id (-32601) ("Tool not found: " ++ py_str tool_name) /\
      st' = st)
     \/
     (exists handler result text,
        getitem tool_handlers tool_name = Ok handler /\
        tools.run_tool handler arguments (world st) = (Ok result, world st') /\
        calls st' = (calls st ++ [(tools.name handler, arguments)])%list /\
        text_item (sse_result_data result) text /\
        content response = jsonrpc_result request_id (tool_content text))).
Proof.
  intros Hm. unfold sse_jsonrpc. step.
  rewrite (dict_get_found _ _ _ _ Hm). step.
  destruct (dict_get "params" d (PyDict [])) as [| | | | | | | p |] eqn:Hp;
    try (step; discriminate).
  intros H. exists p. split; [reflexivity |]. step in H.
  destruct (key_in (dict_get "name" p PyNone) tool_handlers) as [[|] | e] eqn:Hk;
    step in H; try discriminate.
  - destruct (getitem tool_handlers (dict_get "name" p PyNone)) as [handler | e] eqn:Hg;
      step in H; try discriminate.
    destruct (invoke handler (dict_get "arguments" p (PyDict [])) st)
      as [[result | e] st1] eqn:Hi; try discriminate.
    apply invoke_inv in Hi as [Hrun Hcalls].
    unfold text_item.
    destruct (is_dict_or_list (sse_result_data result)) eqn:Hd.
    + step in H.
      destruct (json_dumps (sse_result_data result)) as [s | e] eqn:Hs; try discriminate.
      apply lift_JSONResponse_inv in H as (Hst & Hc & Hr & ->). rewrite <- Hc in Hr.
      split; [exact Hst |]. split; [exact Hr |]. right. exists handler, result, (PyStr s).
      rewrite Hd. repeat split; eauto.
    + step in H.
      apply lift_JSONResponse_inv in H as (Hst & Hc & Hr & ->). rewrite <- Hc in Hr.
      split; [exact Hst |]. split; [exact Hr |].
      right. exists handler, result, (sse_result_data result).
      rewrite Hd. repeat split; eauto.
  - apply lift_JSONResponse_inv in H as (Hst & Hc & Hr & ->). rewrite <- Hc in Hr.
    split; [exact Hst |]. split; [exact Hr |]. left. repeat split; assumption.
Qed.

(** Every answer of the envelope branch carries the id it read. *)
Lemma sse_jsonrpc_id (d : pydict) (st st' : state) (response : Response) :
  sse_jsonrpc tool_handlers (PyDict d) st = (Ok response, st') ->
  status_code response = 200 /\
  ((exists r, content response = jsonrpc_result (dict_get "id" d PyNone) r) \/
   (exists c m, content response = jsonrpc_error (dict_get "id" d PyNone) c m)).
Proof.
  destruct (py_eq_str (dict_get "method" d (PyStr EmptyString)) "tools/call") eqn:Hcall.
  - assert (Hm : dict_lookup "method" d = Some (PyStr "tools/call")).
    { unfold dict_get in Hcall. destruct (dict_lookup "method" d) as [v |]; [| discriminate].
      destruct v; try discriminate. cbn in Hcall. apply String.eqb_eq in Hcall. now subst. }
    intros H. apply (sse_jsonrpc_tools_call_inv _ _ _ _ Hm) in H as (p & _ & Hst & _ & H).
    split; [exact Hst |].
    destruct H as [(_ & Hc & _) | (h & r & t & _ & _ & _ & _ & Hc)]; eauto.
  - unfold sse_jsonrpc. step. rewrite Hcall.
    destruct (py_eq_str (dict_get "method" d (PyStr EmptyString)) "tools/list");
      [| destruct (py_eq_str (dict_get "method" d (PyStr EmptyString)) "initialize")];
      intros H; apply lift_JSONResponse_inv in H as (Hst & Hc & _ & ->);
      (split; [exact Hst |]); eauto.
Qed.


(** The simple format hands the sequence of the tool to the response as it
    is; a sequence that holds an item cannot be rendered. *)
Lemma sse_fallback_raw (d : pydict) (n : string) (handler : tools.ToolHandler)
  (result : tools.Sequence) (c : ContentItem) (rest : list ContentItem)
  (st : state) (w : World) :
  dict_get "name" d PyNone = PyStr n ->
  dict_lookup n tool_handlers = Some handler ->
  tools.run_tool handler (dict_get "arguments" d (PyDict [])) (world st) = (Ok result, w) ->
  tools.items result = c :: rest ->
  sse_fallback tool_handlers (PyDict d) st =
  (Raise (TypeError ("Object of type " ++ type_name (PyObj c) ++ " is not JSON serializable")),
   {| world := w;
      calls := (calls st ++ [(tools.name handler, dict_get "arguments" d (PyDict []))])%list |}).
Proof.
  intros Hname Hreg Hrun Hitems. unfold sse_fallback. step. rewrite Hname.
  unfold key_in, getitem, dict_mem. cbn [hashable]. rewrite Hreg. step.
  unfold invoke. rewrite Hrun.
  rewrite JSONResponse_raise
    with (e := TypeError ("Object of type " ++ type_name (PyObj c) ++ " is not JSON serializable")).
  - reflexivity.
  - unfold render. cbn [json_encode bind result_monad].
    rewrite (json_encode_item _ _ _ _ _ _ _ Hitems). reflexivity.
Qed.

(** The [except] clause of [sse_call_tool]. *)
Lemma sse_call_tool_ok (request : Request) (st st' : state) (response : Response) :
  sse_dispatch tool_handlers request st = (Ok response, st') ->
  sse_call_tool tool_handlers request st = (Ok response, st').
Proof. unfold sse_call_tool, try_except. intros ->. reflexivity. Qed.

Lemma sse_call_tool_raise (request : Request) (st st' : state) (e : exn) :
  sse_dispatch tool_handlers request st = (Raise e, st') ->
  exists b,
    sse_call_tool tool_handlers request st =
    (Ok {| status_code := 500; content := internal_error e; body := b |}, st').
Proof.
  unfold sse_call_tool, try_except. intros ->.
  destruct (render_internal_error e) as [b Hb]. exists b.
  unfold lift. rewrite (JSONResponse_ok _ _ _ Hb). reflexivity.
Qed.

Lemma sse_call_tool_inv (request : Request) (st st' : state) (response : Response) :
  sse_call_tool tool_handlers request st = (Ok response, st') ->
  sse_dispatch tool_handlers request st = (Ok response, st') \/
  exists e, sse_dispatch tool_handlers request st = (Raise e, st') /\
            status_code response = 500 /\ content response = internal_error e.
Proof.
  destruct (sse_dispatch tool_handlers request st) as [[r | e] st1] eqn:E.
  - rewrite (sse_call_tool_ok _ _ _ _ E). intros H. left. exact H.
  - destruct (sse_call_tool_raise _ _ _ _ E) as [b ->]. intros H. inversion H. subst.
    right. exists e. auto.
Qed.

Lemma sse_fallback_status (body : pyval) (st st' : state) (response : Response) :
  sse_fallback tool_handlers body st = (Ok response, st') ->
  status_code response = 200.
Proof.
  unfold sse_fallback. intros H.
  apply bind_ok_inv in H as (tool_name & st1 & _ & H).
  apply bind_ok_inv in H as (arguments & st2 & _ & H).
  apply bind_ok_inv in H as (present & st3 & _ & H).
  destruct present; cbn [negb] in H; [| discriminate].
  apply bind_ok_inv in H as (handler & st4 & _ & H).
  apply bind_ok_inv in H as (result & st5 & _ & H).
  apply lift_JSONResponse_inv in H. tauto.
Qed.

(** Only a body that is an object gets through the dispatch, by one of its
    two branches. *)
Lemma sse_dispatch_ok_inv (request : Request) (st st' : state) (response : Response) :
  sse_dispatch tool_handlers request st = (Ok response, st') ->
  exists d,
    request_json request = Ok (PyDict d) /\
    ((dict_lookup "jsonrpc" d = Some (PyStr "2.0") /\
      sse_jsonrpc tool_handlers (PyDict d) st = (Ok response, st')) \/
     sse_fallback tool_handlers (PyDict d) st = (Ok response, st')).
Proof.
  unfold sse_dispatch. intros H.
  apply bind_ok_inv in H as (body & st1 & Hbody & H).
  apply lift_ok_inv in Hbody as [Hbody ->].
  destruct body as [| b | z | f | s | l | l | d | c];
    try (step in H; discriminate).
  - (* a string: the key is looked for as a substring *)
    step in H. destruct (contains_substring "jsonrpc" s); step in H; discriminate.
  - (* a list: the key is looked for among the elements *)
    step in H.
    destruct (existsb (fun x => py_eq_str x "jsonrpc") l); step in H; discriminate.
  - step in H.
    destruct (existsb (fun x => py_eq_str x "jsonrpc") l); step in H; discriminate.
  - exists d. split; [exact Hbody |]. step in H. unfold dict_mem in H.
    destruct (dict_lookup "jsonrpc" d) as [v |] eqn:Hv; step in H.
    + destruct (py_eq_str v "2.0") eqn:Heq; [| right; exact H].
      left. split; [| exact H].
      destruct v; try discriminate. cbn in Heq. apply String.eqb_eq in Heq. now subst.
    + right. exact H.
Qed.

(** The 500 answer is the answer to an exception, and the only one. *)
Lemma sse_call_tool_status (request : Request) (st st' : state) (response : Response) :
  sse_call_tool tool_handlers request st = (Ok response, st') ->
  (status_code response <> 500 <->
   sse_dispatch tool_handlers request st = (Ok response, st')).
Proof.
  intros Hcall. split.
  - intros Hstatus.
    apply sse_call_tool_inv in Hcall as [H | (e & _ & H500 & _)]; [exact H | contradiction].
  - intros H. apply sse_dispatch_ok_inv in H as (d & _ & [[_ H] | H]).
    + apply sse_jsonrpc_id in H as [-> _]. discriminate.
    + apply sse_fallback_status in H as ->. discriminate.
Qed.


(** A tools/call that is answered without an error member: the tool that
    ran, what it gave, and the text item made of it.  A result whose first
    item has no text never gets that far: neither encoder takes it. *)
Lemma sse_tools_call_success (request : Request) (d : pydict) (st st' : state)
  (response : Response) :
  request_json request = Ok (PyDict d) ->
  dict_lookup "jsonrpc" d = Some (PyStr "2.0") ->
  dict_lookup "method" d = Some (PyStr "tools/call") ->
  sse_call_tool tool_handlers request st = (Ok response, st') ->
  member "error" (content response) = None ->
  exists p handler result text,
    dict_get "params" d (PyDict []) = PyDict p /\
    getitem tool_handlers (dict_get "name" p PyNone) = Ok handler /\
    tools.run_tool handler (dict_get "arguments" p (PyDict [])) (world st)
      = (Ok result, world st') /\
    text_item (sse_result_data result) text /\
    status_code response = 200 /\
    content response = jsonrpc_result (dict_get "id" d PyNone) (tool_content text) /\
    (forall class_name rest, tools.items result <> OpaqueContent class_name :: rest).
Proof.
  intros Hbody Hversion Hmethod Hcall Hok.
  apply sse_call_tool_inv in Hcall as [H | (e & _ & _ & Hc)];
    [| rewrite Hc in Hok; discriminate].
  rewrite (sse_dispatch_jsonrpc _ _ _ Hbody Hversion) in H.
  apply (sse_jsonrpc_tools_call_inv _ _ _ _ Hmethod) in H as (p & Hp & Hst & Hr & H).
  destruct H as [(_ & Hc & _) | (handler & result & text & Hg & Hrun & _ & Ht & Hc)];
    [rewrite Hc in Hok; discriminate |].
  exists p, handler, result, text. repeat split; try assumption.
  intros class_name rest Hitems.
  assert (Hdata : sse_result_data result = tools.value result).
  { unfold sse_result_data. rewrite Hitems. reflexivity. }
  unfold text_item in Ht. rewrite Hdata in Ht.
  destruct result as [l | l]; cbn [tools.value is_dict_or_list] in Ht.
  - destruct Ht as (s & Hs & _). unfold json_dumps in Hs.
    change (PyList (map PyObj l)) with (tools.value (tools.ListOf l)) in Hs.
    rewrite (json_encode_item _ _ _ _ _ _ _ Hitems) in Hs. discriminate.
  - cbn in Hitems. subst l. rewrite Hc, Ht in Hr. unfold render in Hr.
    cbn [json_encode jsonrpc_result tool_content bind result_monad map] in Hr.
    destruct (json_encode false false "," ":" (dict_get "id" d PyNone)); discriminate.
Qed.

End GatewayFacts.

(** ** The claims on the two surfaces *)

Section Claims.
Context {RT : Runtime}.
Variable tool_handlers : registry.



(** C3.  The canonical result of a sequence returned by a tool: when the
    sequence has a first item and that item has a text, the value the text
    parses to if it parses, and the text itself, unchanged, if it does not;
    when the sequence is empty or its first item has no text, the sequence
    itself.  The text of the object with a at 1 gives the dict of a and 1;
    the text plain gives the string plain. *)
Theorem normalization_cases (result : tools.Sequence) :
  (forall text rest v,
     tools.items result = TextContent text :: rest ->
     json_loads text = Ok v ->
     call_tool_result_data result = v) /\
  (forall text rest e,
     tools.items result = TextContent text :: rest ->
     json_loads text = Raise e ->
     call_tool_result_data result = PyStr text) /\
  (tools.items result = [] -> call_tool_result_data result = tools.value result) /\
  (forall class_name rest,
     tools.items result = OpaqueContent class_name :: rest ->
     call_tool_result_data result = tools.value result) /\
  call_tool_result_data (tools.ListOf [TextContent (dq "{'a':1}")]) = PyDict [("a", PyInt 1)] /\
  call_tool_result_data (tools.ListOf [TextContent "plain"]) = PyStr "plain".
Proof.
  unfold call_tool_result_data. repeat split.
  - intros text rest v -> ->. reflexivity.
  - intros text rest e -> ->. reflexivity.
  - intros ->. reflexivity.
  - intros class_name rest ->. reflexivity.
Qed.





(** C10.  In a successful JSON-RPC 2.0 tools/call on POST /sse whose
    canonical result is neither a string nor a dict or a list, the text
    member of the one content item is that value itself and not a string: a
    number, a boolean or null read from the text of the first item, or the
    empty tuple a tool returned. *)
Theorem tools_call_text_not_a_string :
  (forall (request : Request) (d : pydict) (st st' : state) (response : Response),
     request_json request = Ok (PyDict d) ->
     dict_lookup "jsonrpc" d = Some (PyStr "2.0") ->
     dict_lookup "method" d = Some (PyStr "tools/call") ->
     sse_call_tool tool_handlers request st = (Ok response, st') ->
     member "error" (content response) = None ->
     exists p handler result text,
       dict_get "params" d (PyDict []) = PyDict p /\
       getitem tool_handlers (dict_get "name" p PyNone) = Ok handler /\
       tools.run_tool handler (dict_get "arguments" p (PyDict [])) (world st)
         = (Ok result, world st') /\
       member "result" (content response) = Some (tool_content text) /\
       (is_dict_or_list (sse_result_data result) = false ->
        (forall s, sse_result_data result <> PyStr s) ->
        text = sse_result_data result /\ forall s, text <> PyStr s)) /\
  sse_result_data (tools.ListOf [TextContent "42"]) = PyInt 42 /\
  sse_result_data (tools.ListOf [TextContent "true"]) = PyBool true /\
  sse_result_data (tools.ListOf [TextContent "null"]) = PyNone /\
  sse_result_data (tools.TupleOf []) = PyTuple [].
Proof.
  split; [| repeat split].
  intros request d st st' response Hbody Hversion Hmethod Hcall Hok.
  destruct (sse_tools_call_success _ _ _ _ _ _ Hbody Hversion Hmethod Hcall Hok)
    as (p & handler & result & text & Hp & Hg & Hrun & Ht & _ & Hc & _).
  exists p, handler, result, text.
  split; [exact Hp |]. split; [exact Hg |]. split; [exact Hrun |].
  split; [rewrite Hc; reflexivity |].
  intros Hd Hns. unfold text_item in Ht. rewrite Hd in Ht. subst text.
  split; [reflexivity | exact Hns].
Qed.

End Claims.

(** ** GET /sse *)

Section Stream.
Context {RT : Runtime}.

Lemma hello_frame :
  data_frame (PyDict [("type", PyStr "connection"); ("status", PyStr "connected")])
  = Ok connection_event.
Proof. reflexivity. Qed.

(** The error event is a frame, and is not the connection event. *)
Lemma error_frame (m : string) :
  exists frame,
    data_frame (PyDict [("type", PyStr "error"); ("message", PyStr m)]) = Ok frame /\
    frame <> connection_event.
Proof. eexists. split; [reflexivity |]. cbn. discriminate. Qed.

Lemma keep_alive_loop_alive (before rest : list turn) :
  Forall alive before ->
  keep_alive_loop (before ++ rest) =
  ((repeat keep_alive (length before) ++ fst (keep_alive_loop rest))%list,
   snd (keep_alive_loop rest)).
Proof.
  induction 1 as [| t before [Hc [u Hs]] _ IH]; cbn [app length repeat keep_alive_loop].
  - destruct (keep_alive_loop rest). reflexivity.
  - rewrite Hc, Hs, IH. reflexivity.
Qed.

Lemma keep_alive_loop_raises (t : turn) (after : list turn) (e : exn) :
  raises t e -> keep_alive_loop (t :: after) = ([], Raised e).
Proof. intros [Hc | [Hc Hs]]; cbn; rewrite Hc; [| rewrite Hs]; reflexivity. Qed.

Lemma keep_alive_loop_frames (turns : list turn) :
  Forall (fun frame => frame = keep_alive) (fst (keep_alive_loop turns)).
Proof.
  induction turns as [| t turns IH]; cbn; [constructor |].
  destruct (is_disconnected t) as [[|] | e]; cbn; try constructor.
  destruct (sleep t) as [u | e]; cbn; try constructor.
  destruct (keep_alive_loop turns) as [frames e]. cbn in *. constructor; [reflexivity | exact IH].
Qed.

Lemma keep_alives_hold_no_event (frames : list string) :
  Forall (fun frame => frame = keep_alive) frames -> ~ In connection_event frames.
Proof.
  intros H Hin. rewrite Forall_forall in H. apply H in Hin.
  cbn in Hin. discriminate Hin.
Qed.

(** C9.  On every GET /sse stream the first frame is the connection event,
    and no later frame is one; once a disconnect check of the loop finds the
    client gone, the stream is closed with the frames sent so far (the
    connection event and the keep-alive comments), whatever would have come
    after, and with no error event; an exception inside the loop, from the
    check or from the sleep, adds exactly one error event, after which the
    stream is closed; the endpoint leaves the state as it is and the frames
    depend on the turns of the connection alone: no tool is ever run. *)
Theorem sse_stream_lifecycle :
  (forall turns, exists frames,
     fst (event_generator turns) = connection_event :: frames /\
     ~ In connection_event frames) /\
  (forall before t after,
     Forall alive before -> is_disconnected t = Ok true ->
     event_generator (before ++ t :: after)
     = (connection_event :: repeat keep_alive (length before), Closed)) /\
  (forall before t after e,
     Forall alive before -> raises t e ->
     exists frame,
       data_frame (PyDict [("type", PyStr "error"); ("message", PyStr (exn_str e))])
       = Ok frame /\
       event_generator (before ++ t :: after)
       = (connection_event :: (repeat keep_alive (length before) ++ [frame])%list, Closed)) /\
  (forall request st, exists response,
     sse_endpoint request st = (Ok response, st) /\ events response = event_generator).
Proof.
  repeat split.
  - intros turns. unfold event_generator. rewrite hello_frame.
    pose proof (keep_alive_loop_frames turns) as Hf.
    destruct (keep_alive_loop turns) as [frames e]. cbn [fst] in Hf.
    destruct e as [| | e].
    + exists frames. split; [reflexivity |]. now apply keep_alives_hold_no_event.
    + exists frames. split; [reflexivity |]. now apply keep_alives_hold_no_event.
    + unfold error_event. destruct (error_frame (exn_str e)) as (frame & -> & Hne).
      exists (frames ++ [frame])%list. split; [reflexivity |].
      intros Hin. apply in_app_or in Hin as [Hin | [Hin | []]].
      * now apply (keep_alives_hold_no_event frames).
      * now apply Hne.
  - intros before t after Hb Ht. unfold event_generator. rewrite hello_frame.
    rewrite (keep_alive_loop_alive _ _ Hb). cbn [keep_alive_loop]. rewrite Ht.
    cbn [fst snd]. now rewrite app_nil_r.
  - intros before t after e Hb Ht.
    destruct (error_frame (exn_str e)) as (frame & Hframe & _).
    exists frame. split; [exact Hframe |].
    unfold event_generator. rewrite hello_frame.
    rewrite (keep_alive_loop_alive _ _ Hb), (keep_alive_loop_raises _ _ _ Ht).
    cbn [fst snd]. unfold error_event. rewrite Hframe, app_nil_r. reflexivity.
  - intros request st. eexists. split; reflexivity.
Qed.

End Stream.

(** ** The gateway at work *)

Section DemoFacts.
#[local] Existing Instance demo_runtime.




Lemma normalization_cases_witness :
  call_tool_result_data (tools.ListOf [TextContent (dq "['a.md', 'b.md']")])
  = PyList [PyStr "a.md"; PyStr "b.md"].
Proof.
  apply (proj1 (normalization_cases (tools.ListOf [TextContent (dq "['a.md', 'b.md']")]))
           (dq "['a.md', 'b.md']") []).
  - reflexivity.
  - reflexivity.
Defined.






(** C7 fails on the code.  The tool obsidian_simple_search of the demo
    returns one text item, the JSON text of an object.  POST /tools/call
    answers with the parsed object; the envelope form of POST /sse answers
    with the encoding of the parsed object; the simple form of POST /sse
    hands the raw sequence to the response, which cannot be rendered, and
    answers with the 500 envelope. *)
Theorem simple_form_skips_normalization :
  (exists response,
     call_tool demo_handlers {| name := "obsidian_simple_search"; arguments := [] |} start
     = (Ok response, after "obsidian_simple_search") /\
     member "result" (content response) = Some (PyDict [("a", PyInt 1)])) /\
  (exists response,
     sse_call_tool demo_handlers (call_of "1" (dq "'obsidian_simple_search'")) start
     = (Ok response, after "obsidian_simple_search") /\
     member "result" (content response) = Some (tool_content (PyStr (dq "{'a': 1}")))) /\
  (exists response,
     sse_call_tool demo_handlers (simple_of (dq "'obsidian_simple_search'")) start
     = (Ok response, after "obsidian_simple_search") /\
     status_code response = 500 /\
     content response =
       internal_error (TypeError "Object of type TextContent is not JSON serializable")).
Proof.
  split; [| split]; eexists; (split; [vm_compute; reflexivity |]); repeat split.
Qed.


Lemma tools_call_text_not_a_string_witness :
  exists response p handler result,
    sse_call_tool demo_handlers (call_of "1" (dq "'obsidian_patch_content'")) start
    = (Ok response, after "obsidian_patch_content") /\
    dict_get "params" (body_of (PyInt 1) (PyStr "obsidian_patch_content")) (PyDict [])
    = PyDict p /\
    getitem demo_handlers (dict_get "name" p PyNone) = Ok handler /\
    tools.run_tool handler (dict_get "arguments" p (PyDict [])) tt = (Ok result, tt) /\
    member "result" (content response) = Some (tool_content (PyInt 42)).
Proof.
  eexists.
  assert (Hcall : sse_call_tool demo_handlers
                    (call_of "1" (dq "'obsidian_patch_content'")) start
                  = (Ok _, after "obsidian_patch_content")) by (vm_compute; reflexivity).
  destruct (proj1 (tools_call_text_not_a_string demo_handlers)
              (call_of "1" (dq "'obsidian_patch_content'"))
              (body_of (PyInt 1) (PyStr "obsidian_patch_content"))
              start (after "obsidian_patch_content") _
              eq_refl eq_refl eq_refl Hcall eq_refl)
    as (p & handler & result & text & Hp & Hg & Hrun & Hres & _).
  exists p, handler, result.
  split; [exact Hcall |]. split; [exact Hp |]. split; [exact Hg |]. split; [exact Hrun |].
  rewrite Hres. f_equal. cbn in Hres. injection Hres as <-. reflexivity.
Defined.

Lemma sse_stream_lifecycle_witness :
  event_generator ([always_alive; always_alive] ++ gone :: [always_alive])
  = (connection_event :: repeat keep_alive 2, Closed).
Proof.
  apply (proj1 (proj2 sse_stream_lifecycle)).
  - repeat constructor; exists tt; reflexivity.
  - reflexivity.
Defined.

End DemoFacts.

(** * More of the code *)

(** ** The registry *)

Section DictFacts.


Lemma dict_lookup_set {V : Type} (k k' : string) (v : V) (d : list (string * V)) :
  dict_lookup k (dict_set k' v d) = if String.eqb k k' then Some v else dict_lookup k d.
Proof.
  induction d as [| [k0 v0] d IH]; cbn.
  - destruct (String.eqb k k'); reflexivity.
  - destruct (String.eqb_spec k' k0) as [-> | Hne]; cbn.
    + destruct (String.eqb k k0); reflexivity.
    + destruct (String.eqb_spec k k0) as [-> | Hne'].
      * destruct (String.eqb_spec k0 k') as [-> | _]; [contradiction | reflexivity].
      * exact IH.
Qed.

Lemma dict_mem_keys {V : Type} (k : string) (d : list (string * V)) :
  dict_mem k d = true <-> In k (dict_keys d).
Proof.
  unfold dict_mem. induction d as [| [k0 v0] d IH]; cbn.
  - split; [discriminate | intros []].
  - destruct (String.eqb_spec k k0) as [-> | Hne].
    + split; auto.
    + rewrite IH. split; [auto |]. intros [E | H]; [congruence | exact H].
Qed.

Lemma dict_keys_set {V : Type} (k : string) (v : V) (d : list (string * V)) :
  dict_keys (dict_set k v d) =
  if dict_mem k d then dict_keys d else (dict_keys d ++ [k])%list.
Proof.
  unfold dict_mem. induction d as [| [k0 v0] d IH]; cbn; [reflexivity |].
  destruct (String.eqb_spec k k0) as [-> | Hne]; cbn; [reflexivity |].
  fold (dict_keys (dict_set k v d)). fold (dict_keys d). rewrite IH.
  destruct (dict_lookup k d); reflexivity.
Qed.

Lemma dict_set_NoDup {V : Type} (k : string) (v : V) (d : list (string * V)) :
  NoDup (dict_keys d) -> NoDup (dict_keys (dict_set k v d)).
Proof.
  intros H. rewrite dict_keys_set. destruct (dict_mem k d) eqn:E; [exact H |].
  apply NoDup_app; [exact H | repeat constructor; intros [] |].
  intros x Hx [<- | []]. apply dict_mem_keys in Hx. congruence.
Qed.

End DictFacts.

Section RegistryFacts.
Context {RT : Runtime}.

Lemma registered_instances (t : tools.module) :
  registered t = fold_left add_tool_handler (instances t) [].
Proof. reflexivity. Qed.

(** X1.  Registering a handler puts it under its own name: a lookup of
    that name then finds this handler, whatever was there before, and every
    other name is found as before.  A name that is new goes last in the
    order of the keys; a name that was registered keeps its place. *)
Theorem add_tool_handler_registers (tool_handlers : registry)
  (tool_class : tools.ToolHandler) :
  (forall k,
     dict_lookup k (add_tool_handler tool_handlers tool_class) =
     if String.eqb k (tools.name tool_class) then Some tool_class
     else dict_lookup k tool_handlers) /\
  dict_keys (add_tool_handler tool_handlers tool_class) =
  (if dict_mem (tools.name tool_class) tool_handlers
   then dict_keys tool_handlers
   else (dict_keys tool_handlers ++ [tools.name tool_class])%list).
Proof. split; [intros k; apply dict_lookup_set | apply dict_keys_set]. Qed.

Lemma find_append {A : Type} (f : A -> bool) (l l' : list A) :
  find f (l ++ l') = match find f l with Some a => Some a | None => find f l' end.
Proof.
  induction l as [| a l IH]; cbn; [reflexivity |]. destruct (f a); [reflexivity | exact IH].
Qed.

Lemma fold_lookup (hs : list tools.ToolHandler) (reg : registry) (k : string) :
  dict_lookup k (fold_left add_tool_handler hs reg) =
  match find (fun h => String.eqb k (tools.name h)) (rev hs) with
  | Some h => Some h
  | None => dict_lookup k reg
  end.
Proof.
  revert reg. induction hs as [| h hs IH]; intros reg; cbn [fold_left rev find].
  - reflexivity.
  - rewrite IH, find_append.
    destruct (find (fun h0 => String.eqb k (tools.name h0)) (rev hs)); [reflexivity |].
    cbn [find]. unfold add_tool_handler. rewrite dict_lookup_set.
    destruct (String.eqb k (tools.name h)); reflexivity.
Qed.

Lemma fold_NoDup (hs : list tools.ToolHandler) (reg : registry) :
  NoDup (dict_keys reg) -> NoDup (dict_keys (fold_left add_tool_handler hs reg)).
Proof.
  revert reg. induction hs as [| h hs IH]; intros reg H; cbn; [exact H |].
  apply IH. now apply dict_set_NoDup.
Qed.

Lemma fold_keys_fresh (hs : list tools.ToolHandler) (reg : registry) :
  NoDup (map tools.name hs) ->
  (forall h, In h hs -> dict_mem (tools.name h) reg = false) ->
  dict_keys (fold_left add_tool_handler hs reg) = (dict_keys reg ++ map tools.name hs)%list.
Proof.
  revert reg. induction hs as [| h hs IH]; intros reg Hnd Hfresh; cbn [fold_left map].
  - now rewrite app_nil_r.
  - inversion Hnd as [| x l Hnotin Hnd']. subst.
    rewrite IH.
    + unfold add_tool_handler at 1. rewrite dict_keys_set, (Hfresh h (or_introl eq_refl)).
      now rewrite <- app_assoc.
    + exact Hnd'.
    + intros h' Hin. unfold dict_mem, add_tool_handler. rewrite dict_lookup_set.
      destruct (String.eqb_spec (tools.name h') (tools.name h)) as [E | _].
      * exfalso. apply Hnotin. rewrite <- E. now apply in_map.
      * apply (Hfresh h' (or_intror Hin)).
Qed.

Lemma fold_length (hs : list tools.ToolHandler) (reg : registry) :
  (length (fold_left add_tool_handler hs reg) <= length reg + length hs)%nat.
Proof.
  revert reg. induction hs as [| h hs IH]; intros reg; cbn [fold_left length]; [lia |].
  specialize (IH (add_tool_handler reg h)).
  assert (Hadd : (length (add_tool_handler reg h) <= S (length reg))%nat).
  { unfold add_tool_handler. generalize (tools.name h). intros k. clear IH.
    induction reg as [| [k0 v0] reg IHr]; cbn; [lia |].
    destruct (String.eqb k k0); cbn; lia. }
  cbn. lia.
Qed.

Lemma fold_lookup_empty (hs : list tools.ToolHandler) (k : string) :
  dict_lookup k (fold_left add_tool_handler hs []) =
  find (fun h => String.eqb k (tools.name h)) (rev hs).
Proof. rewrite fold_lookup. destruct (find _ (rev hs)); reflexivity. Qed.

(** X2.  After start-up a name is bound to the last of the thirteen
    instances that carries it, and to nothing when none does: a later
    registration under the same name silently replaces an earlier one. *)
Theorem registered_lookup (t : tools.module) (k : string) :
  dict_lookup k (registered t) =
  find (fun h => String.eqb k (tools.name h)) (rev (instances t)).
Proof.
  rewrite registered_instances. apply fold_lookup_empty.
Qed.

(** X3.  The registry built at start-up has no key twice and at most
    thirteen entries; its keys are exactly the names of the instances, each
    entry sits under the name of its own handler, and when the thirteen
    names differ the keys come in the order of registration. *)
Theorem registered_keys (t : tools.module) :
  NoDup (dict_keys (registered t)) /\
  (length (registered t) <= 13)%nat /\
  (forall k, In k (dict_keys (registered t)) <-> In k (map tools.name (instances t))) /\
  (forall k handler, dict_lookup k (registered t) = Some handler -> tools.name handler = k) /\
  (NoDup (map tools.name (instances t)) ->
   dict_keys (registered t) = map tools.name (instances t)).
Proof.
  split; [| split; [| split; [| split]]].
  - rewrite registered_instances. apply fold_NoDup. constructor.
  - rewrite registered_instances. apply (fold_length (instances t) []).
  - intros k. rewrite <- dict_mem_keys. unfold dict_mem. rewrite registered_instances, fold_lookup_empty.
    destruct (find _ (rev (instances t))) as [h |] eqn:E.
    + apply find_some in E as [Hin Heq]. apply String.eqb_eq in Heq. subst k.
      split; [intros _ | reflexivity]. apply in_map, in_rev. exact Hin.
    + split; [discriminate |]. intros Hin. apply in_map_iff in Hin as (h & <- & Hin).
      apply in_rev in Hin. apply (find_none _ _ E) in Hin.
      rewrite String.eqb_refl in Hin. discriminate.
  - intros k handler. rewrite registered_instances, fold_lookup_empty. intros E.
    apply find_some in E as [_ Heq]. apply String.eqb_eq in Heq. now subst.
  - intros Hnd. rewrite registered_instances.
    now rewrite (fold_keys_fresh (instances t) [] Hnd) by reflexivity.
Qed.

End RegistryFacts.

(** ** POST /tools/call *)

Section CallTool.
Context {RT : Runtime}.
Variable tool_handlers : registry.

Lemma render_call_tool_content (name : string) (result_data : pyval) :
  render (call_tool_content name result_data) =
  match render result_data with
  | Ok s => Ok ("{" ++ join "," [ encode_str false "success" ++ ":" ++ "true";
                                  encode_str false "tool" ++ ":" ++ encode_str false name;
                                  encode_str false "result" ++ ":" ++ s ] ++ "}")
  | Raise e => Raise e
  end.
Proof.
  unfold render, call_tool_content. cbn [json_encode bind result_monad].
  destruct (json_encode false false "," ":" result_data); reflexivity.
Qed.

(** What [call_tool] does, case by case. *)
Lemma call_tool_cases (request : ToolCallRequest) (st : state) :
  call_tool tool_handlers request st =
  match dict_lookup (name request) tool_handlers with
  | None =>
      (Raise (HTTPException 404
                ("Tool '" ++ name request ++ "' not found. Available tools: "
                 ++ py_str (PyList (map PyStr (dict_keys tool_handlers))))), st)
  | Some handler =>
      let arguments := PyDict (arguments request) in
      let (r, w) := tools.run_tool handler arguments (world st) in
      match r with
      | Raise e => (Raise (as_http_error e), ran st handler arguments w)
      | Ok result =>
          match JSONResponse 200
                  (call_tool_content (name request) (call_tool_result_data result)) with
          | Ok response => (Ok response, ran st handler arguments w)
          | Raise e => (Raise (as_http_error e), ran st handler arguments w)
          end
      end
  end.
Proof.
  unfold call_tool, try_except, key_in, getitem, dict_mem. cbn [hashable].
  destruct (dict_lookup (name request) tool_handlers) as [handler |]; [| reflexivity].
  cbn [bind M_monad lift negb]. unfold invoke, ran.
  destruct (tools.run_tool handler (PyDict (arguments request)) (world st)) as [[result | e] w].
  - unfold call_tool_content.
    destruct (JSONResponse 200 _) as [response | e]; [reflexivity |].
    destruct e; reflexivity.
  - destruct e; reflexivity.
Qed.



(** X4.  POST /tools/call on a registered tool that returns, with a
    canonical result the response can render: the answer is HTTP 200 with
    success true, the name of the tool as it was asked for and the canonical
    result; the tool has run exactly once, on the arguments of the request as
    they came. *)
Theorem call_tool_success (request : ToolCallRequest) (st : state)
  (handler : tools.ToolHandler) (result : tools.Sequence) (w : World) (s : string) :
  dict_lookup (name request) tool_handlers = Some handler ->
  tools.run_tool handler (PyDict (arguments request)) (world st) = (Ok result, w) ->
  render (call_tool_result_data result) = Ok s ->
  exists response,
    call_tool tool_handlers request st
    = (Ok response, ran st handler (PyDict (arguments request)) w) /\
    status_code response = 200 /\
    content response =
      PyDict [ ("success", PyBool true);
               ("tool", PyStr (name request));
               ("result", call_tool_result_data result) ].
Proof.
  intros Hreg Hrun Hrender. rewrite call_tool_cases, Hreg. cbn zeta. rewrite Hrun.
  unfold JSONResponse. rewrite render_call_tool_content, Hrender.
  cbn [bind result_monad]. eexists. split; [reflexivity |]. split; reflexivity.
Qed.

(** X5.  Whatever goes wrong in POST /tools/call, the exception that leaves
    the handler is an HTTP error; when the tool is not registered it is the
    404 and nothing has run. *)
Theorem call_tool_raises_http_errors (request : ToolCallRequest) (st st' : state) (e : exn) :
  call_tool tool_handlers request st = (Raise e, st') ->
  exists status detail,
    e = HTTPException status detail /\
    (dict_lookup (name request) tool_handlers = None -> status = 404 /\ st' = st).
Proof.
  rewrite call_tool_cases.
  assert (Hhttp : forall e0, exists status detail, as_http_error e0 = HTTPException status detail).
  { intros e0. destruct e0; cbn; eauto. }
  destruct (dict_lookup (name request) tool_handlers) as [handler |].
  - cbn zeta. destruct (tools.run_tool handler _ (world st)) as [[result | e0] w].
    + destruct (JSONResponse 200 _) as [response | e0]; intros H; inversion H.
      destruct (Hhttp e0) as (status & detail & ->). exists status, detail.
      split; [reflexivity | discriminate].
    + intros H. inversion H. destruct (Hhttp e0) as (status & detail & ->).
      exists status, detail. split; [reflexivity | discriminate].
  - intros H. inversion H. do 2 eexists. split; [reflexivity |]. auto.
Qed.

(** X6.  When the tool raises, POST /tools/call raises an HTTP error after
    the one run of the tool: the error of the tool itself when that is an
    HTTP error, and otherwise the error 500 whose detail is the text of the
    exception, which FastAPI answers as such. *)
Theorem call_tool_tool_failure (request : ToolCallRequest) (st : state)
  (handler : tools.ToolHandler) (e : exn) (w : World) :
  dict_lookup (name request) tool_handlers = Some handler ->
  tools.run_tool handler (PyDict (arguments request)) (world st) = (Raise e, w) ->
  call_tool tool_handlers request st
  = (Raise (as_http_error e), ran st handler (PyDict (arguments request)) w) /\
  ((forall status detail, e <> HTTPException status detail) ->
   serve (call_tool tool_handlers request) st
   = (exception_response (HTTPException 500 (exn_str e)),
      ran st handler (PyDict (arguments request)) w)).
Proof.
  intros Hreg Hrun.
  assert (Hcall : call_tool tool_handlers request st
                  = (Raise (as_http_error e), ran st handler (PyDict (arguments request)) w)).
  { rewrite call_tool_cases, Hreg. cbn zeta. rewrite Hrun. reflexivity. }
  split; [exact Hcall |]. intros Hne. unfold serve. rewrite Hcall. unfold respond.
  destruct e; try reflexivity. exfalso. eapply Hne. reflexivity.
Qed.

(** X7.  When the tool returns a sequence whose first item has no text,
    POST /tools/call cannot render the raw sequence: after the run of the
    tool it raises the HTTP error 500 that names the class of the item. *)
Theorem call_tool_item_without_text (request : ToolCallRequest) (st : state)
  (handler : tools.ToolHandler) (result : tools.Sequence) (w : World)
  (class_name : string) (rest : list ContentItem) :
  dict_lookup (name request) tool_handlers = Some handler ->
  tools.run_tool handler (PyDict (arguments request)) (world st) = (Ok result, w) ->
  tools.items result = OpaqueContent class_name :: rest ->
  call_tool tool_handlers request st
  = (Raise (HTTPException 500
              ("Object of type " ++ class_name ++ " is not JSON serializable")),
     ran st handler (PyDict (arguments request)) w).
Proof.
  intros Hreg Hrun Hitems. rewrite call_tool_cases, Hreg. cbn zeta. rewrite Hrun.
  unfold JSONResponse. rewrite render_call_tool_content.
  assert (Hdata : call_tool_result_data result = tools.value result).
  { unfold call_tool_result_data. rewrite Hitems. reflexivity. }
  rewrite Hdata. unfold render. rewrite (json_encode_item _ _ _ _ _ _ _ Hitems).
  reflexivity.
Qed.


(** X9.  Whatever its outcome, POST /tools/call leaves the state as it was
    exactly when the tool is not registered; otherwise the registered
    handler of that name has run once, on the arguments of the request, and
    no other tool has. *)
Theorem call_tool_runs_one_tool (request : ToolCallRequest) (st st' : state)
  (r : result Response) :
  call_tool tool_handlers request st = (r, st') ->
  (dict_lookup (name request) tool_handlers = None /\ st' = st) \/
  (exists handler r0,
     dict_lookup (name request) tool_handlers = Some handler /\
     tools.run_tool handler (PyDict (arguments request)) (world st) = (r0, world st') /\
     calls st' = (calls st ++ [(tools.name handler, PyDict (arguments request))])%list).
Proof.
  rewrite call_tool_cases.
  destruct (dict_lookup (name request) tool_handlers) as [handler |].
  - cbn zeta.
    destruct (tools.run_tool handler _ (world st)) as [r0 w] eqn:Hrun.
    intros H. right. exists handler, r0. split; [reflexivity |].
    assert (Hst : st' = ran st handler (PyDict (arguments request)) w).
    { destruct r0 as [result | e0]; [destruct (JSONResponse 200 _) |]; now inversion H. }
    subst st'. split; [exact Hrun | reflexivity].
  - intros H. inversion H. left. auto.
Qed.

End CallTool.

(** ** POST /sse *)

Section Sse.
Context {RT : Runtime}.
Variable tool_handlers : registry.

Lemma render_jsonrpc_result (request_id r : pyval) (s s' : string) :
  render request_id = Ok s -> render r = Ok s' ->
  exists b, render (jsonrpc_result request_id r) = Ok b.
Proof.
  unfold render, jsonrpc_result. intros H H'. cbn [json_encode bind result_monad].
  rewrite H, H'. eexists. reflexivity.
Qed.

Lemma getitem_inv (k : pyval) (handler : tools.ToolHandler) :
  getitem tool_handlers k = Ok handler ->
  exists n, k = PyStr n /\ dict_lookup n tool_handlers = Some handler.
Proof.
  unfold getitem. destruct k; cbn; try discriminate.
  destruct (dict_lookup s tool_handlers) as [h |] eqn:E; [| discriminate].
  intros H. inversion H. subst. eauto.
Qed.


(** X11.  A body of POST /sse that does not parse, or parses to anything
    but an object (a list, a string, a number, true, false, null), is
    answered 500 with the envelope of code -32603, and no tool runs; for a
    body that does not parse the message is that of the decoder. *)
Theorem sse_body_not_an_object (request : Request) (st : state) :
  (forall d, request_json request <> Ok (PyDict d)) ->
  exists response e,
    sse_call_tool tool_handlers request st = (Ok response, st) /\
    status_code response = 500 /\
    content response = internal_error e /\
    (forall e0, request_json request = Raise e0 -> e = e0).
Proof.
  intros Hbody.
  assert (H : exists e, sse_dispatch tool_handlers request st = (Raise e, st) /\
                        (forall e0, request_json request = Raise e0 -> e = e0)).
  { unfold sse_dispatch.
    destruct (request_json request) as [body | e0] eqn:E.
    - rewrite (bind_lift_ok _ _ _ _ eq_refl).
      destruct body as [| b | z | f | s | l | l | d | c];
        try (eexists; split; [reflexivity | discriminate]).
      + step. destruct (contains_substring "jsonrpc" s); step;
          (eexists; split; [reflexivity | discriminate]).
      + step. destruct (existsb (fun x => py_eq_str x "jsonrpc") l); step;
          (eexists; split; [reflexivity | discriminate]).
      + step. destruct (existsb (fun x => py_eq_str x "jsonrpc") l); step;
          (eexists; split; [reflexivity | discriminate]).
      + exfalso. now apply (Hbody d).
    - exists e0. split; [reflexivity |]. intros e1 H1. now inversion H1. }
  destruct H as (e & Hd & He).
  destruct (sse_call_tool_raise _ _ _ _ _ Hd) as [b Hb].
  eexists. exists e. split; [exact Hb |]. cbn. auto.
Qed.

(** X12.  The method initialize of a JSON-RPC 2.0 request is answered 200
    with the id of the request and the same result whatever the params and
    whatever the registry: protocol version 2024-11-05, the tools
    capability, the name and version of the server; no tool runs. *)
Theorem sse_initialize (request : Request) (d : pydict) (st : state) (s : string) :
  request_json request = Ok (PyDict d) ->
  dict_lookup "jsonrpc" d = Some (PyStr "2.0") ->
  dict_lookup "method" d = Some (PyStr "initialize") ->
  render (dict_get "id" d PyNone) = Ok s ->
  exists response,
    sse_call_tool tool_handlers request st = (Ok response, st) /\
    status_code response = 200 /\
    content response =
      PyDict [ ("jsonrpc", PyStr "2.0");
               ("id", dict_get "id" d PyNone);
               ("result", initialize_result) ].
Proof.
  intros Hbody Hversion Hmethod Hid.
  destruct (render_jsonrpc_result (dict_get "id" d PyNone) initialize_result s _ Hid eq_refl)
    as [b Hb].
  eexists. split.
  - apply sse_call_tool_ok. rewrite (sse_dispatch_jsonrpc _ _ _ _ Hbody Hversion).
    unfold sse_jsonrpc. step. rewrite (dict_get_found _ _ _ _ Hmethod). step.
    fold initialize_result. unfold lift. rewrite (JSONResponse_ok _ _ _ Hb). reflexivity.
  - split; reflexivity.
Qed.


(** X14.  The method tools/list of a JSON-RPC 2.0 request is answered 200
    with, for result, the very value GET /tools/list returns: one descriptor
    for each entry of the registry; neither runs a tool.  (The id and the
    descriptors must be values the response can render.) *)
Theorem sse_tools_list (request : Request) (d : pydict) (st : state) (s s' : string) :
  request_json request = Ok (PyDict d) ->
  dict_lookup "jsonrpc" d = Some (PyStr "2.0") ->
  dict_lookup "method" d = Some (PyStr "tools/list") ->
  render (dict_get "id" d PyNone) = Ok s ->
  render (PyList (tools_list tool_handlers)) = Ok s' ->
  exists response listing,
    sse_call_tool tool_handlers request st = (Ok response, st) /\
    status_code response = 200 /\
    list_tools tool_handlers st = (Ok listing, st) /\
    member "result" (content response) = Some listing /\
    member "id" (content response) = Some (dict_get "id" d PyNone) /\
    exists descriptors,
      member "tools" listing = Some (PyList descriptors) /\
      length descriptors = length tool_handlers.
Proof.
  intros Hbody Hversion Hmethod Hid Hlist.
  assert (Hr : exists s2, render (PyDict [("tools", PyList (tools_list tool_handlers))]) = Ok s2).
  { unfold render in *. cbn [json_encode bind result_monad] in *.
    destruct ((fix encode_items (l : list pyval) : result (list string) := _)
                (tools_list tool_handlers)); [| discriminate].
    cbn. eexists. reflexivity. }
  destruct Hr as [s2 Hs2].
  destruct (render_jsonrpc_result _ _ s s2 Hid Hs2) as [b Hb].
  eexists. exists (PyDict [("tools", PyList (tools_list tool_handlers))]). split.
  - apply sse_call_tool_ok. rewrite (sse_dispatch_jsonrpc _ _ _ _ Hbody Hversion).
    unfold sse_jsonrpc. step. rewrite (dict_get_found _ _ _ _ Hmethod). step.
    unfold lift. rewrite (JSONResponse_ok _ _ _ Hb). reflexivity.
  - repeat split. eexists. split; [reflexivity |]. unfold tools_list. apply length_map.
Qed.

Lemma lift_state {A : Type} (r r' : result A) (st st' : state) :
  lift r st = (r', st') -> st' = st.
Proof. unfold lift. intros H. now inversion H. Qed.

Lemma invoke_ran_once (k : pyval) (handler : tools.ToolHandler) (arguments : pyval)
  (st st' : state) (r : result tools.Sequence) :
  getitem tool_handlers k = Ok handler ->
  invoke handler arguments st = (r, st') ->
  ran_once tool_handlers arguments st st'.
Proof.
  intros Hg Hi. apply getitem_inv in Hg as (n & _ & Hreg).
  apply invoke_inv in Hi as [Hrun Hcalls]. exists n, handler, r. auto.
Qed.

Lemma sse_jsonrpc_runs (d : pydict) (st st' : state) (r : result Response) :
  sse_jsonrpc tool_handlers (PyDict d) st = (r, st') ->
  st' = st \/
  exists p, dict_get "params" d (PyDict []) = PyDict p /\
            ran_once tool_handlers (dict_get "arguments" p (PyDict [])) st st'.
Proof.
  unfold sse_jsonrpc. step.
  destruct (py_eq_str (dict_get "method" d (PyStr EmptyString)) "tools/list");
    [intros H; left; exact (lift_state _ _ _ _ H) |].
  destruct (py_eq_str (dict_get "method" d (PyStr EmptyString)) "tools/call");
    [| destruct (py_eq_str (dict_get "method" d (PyStr EmptyString)) "initialize");
       intros H; left; exact (lift_state _ _ _ _ H)].
  destruct (dict_get "params" d (PyDict [])) as [| | | | | | | p |] eqn:Hp;
    try (step; intros H; left; now inversion H).
  step.
  destruct (key_in (dict_get "name" p PyNone) tool_handlers) as [[|] | e];
    step; try (intros H; left; now inversion H).
  destruct (getitem tool_handlers (dict_get "name" p PyNone)) as [handler | e] eqn:Hg;
    step; [| intros H; left; now inversion H].
    destruct (invoke handler (dict_get "arguments" p (PyDict [])) st) as [r0 st1] eqn:Hi.
    pose proof (invoke_ran_once _ _ _ _ _ _ Hg Hi) as Hran.
    intros H. right. exists p. split; [reflexivity |].
    assert (Hst : st' = st1).
    { destruct r0 as [result | e]; [| now inversion H].
      destruct (is_dict_or_list (sse_result_data result)); step in H.
      - destruct (json_dumps (sse_result_data result)); step in H.
        + exact (lift_state _ _ _ _ H).
        + now inversion H.
      - exact (lift_state _ _ _ _ H). }
    now subst.
Qed.

Lemma sse_fallback_runs (d : pydict) (st st' : state) (r : result Response) :
  sse_fallback tool_handlers (PyDict d) st = (r, st') ->
  st' = st \/ ran_once tool_handlers (dict_get "arguments" d (PyDict [])) st st'.
Proof.
  unfold sse_fallback. step.
  destruct (key_in (dict_get "name" d PyNone) tool_handlers) as [[|] | e];
    step; try (intros H; left; now inversion H).
  destruct (getitem tool_handlers (dict_get "name" d PyNone)) as [handler | e] eqn:Hg;
    step; [| intros H; left; now inversion H].
  destruct (invoke handler (dict_get "arguments" d (PyDict [])) st) as [r0 st1] eqn:Hi.
  pose proof (invoke_ran_once _ _ _ _ _ _ Hg Hi) as Hran.
  intros H. right.
  assert (Hst : st' = st1).
  { destruct r0 as [result | e]; [exact (lift_state _ _ _ _ H) | now inversion H]. }
  now subst.
Qed.

(** X15.  A request to POST /sse runs at most one tool, once, and the tool
    is one of the registry: the state after the request is the state before
    it, or the state after one run of a registered handler. *)
Theorem sse_call_tool_runs_one_tool (request : Request) (st st' : state)
  (response : Response) :
  sse_call_tool tool_handlers request st = (Ok response, st') ->
  st' = st \/ exists arguments, ran_once tool_handlers arguments st st'.
Proof.
  intros Hcall.
  assert (H : exists r, sse_dispatch tool_handlers request st = (r, st')).
  { apply sse_call_tool_inv in Hcall as [H | (e & H & _)]; eauto. }
  destruct H as [r H]. unfold sse_dispatch in H.
  destruct (request_json request) as [body | e] eqn:Hbody;
    [rewrite (bind_lift_ok _ _ _ _ eq_refl) in H | left; now inversion H].
  destruct body as [| b | z | f | s | l | l | d | c];
    try (left; step in H; now inversion H).
  - left. step in H. destruct (contains_substring "jsonrpc" s); step in H; now inversion H.
  - left. step in H.
    destruct (existsb (fun x => py_eq_str x "jsonrpc") l); step in H; now inversion H.
  - left. step in H.
    destruct (existsb (fun x => py_eq_str x "jsonrpc") l); step in H; now inversion H.
  - step in H. destruct (dict_mem "jsonrpc" d); step in H.
    + destruct (dict_lookup "jsonrpc" d) as [v |]; step in H; [| left; now inversion H].
      destruct (py_eq_str v "2.0").
      * apply sse_jsonrpc_runs in H as [H | (p & _ & H)]; eauto.
      * apply sse_fallback_runs in H as [H | H]; eauto.
    + apply sse_fallback_runs in H as [H | H]; eauto.
Qed.

(** X16.  In the simple form of name and arguments, POST /sse answers 200
    only when the tool has returned an empty sequence: the answer is then
    success true with the empty sequence as result. *)
Theorem sse_simple_form_success (request : Request) (d : pydict) (st st' : state)
  (response : Response) :
  request_json request = Ok (PyDict d) ->
  (forall v, dict_lookup "jsonrpc" d = Some v -> py_eq_str v "2.0" = false) ->
  sse_call_tool tool_handlers request st = (Ok response, st') ->
  status_code response = 200 ->
  exists handler result,
    getitem tool_handlers (dict_get "name" d PyNone) = Ok handler /\
    tools.run_tool handler (dict_get "arguments" d (PyDict [])) (world st)
    = (Ok result, world st') /\
    tools.items result = [] /\
    content response = PyDict [("success", PyBool true); ("result", tools.value result)].
Proof.
  intros Hbody Hversion Hcall Hstatus.
  apply sse_call_tool_inv in Hcall as [H | (e & _ & H500 & _)];
    [| rewrite H500 in Hstatus; discriminate].
  rewrite (sse_dispatch_fallback _ _ _ _ Hbody Hversion) in H.
  unfold sse_fallback in H. step in H.
  destruct (key_in (dict_get "name" d PyNone) tool_handlers) as [[|] | e];
    step in H; try discriminate.
  destruct (getitem tool_handlers (dict_get "name" d PyNone)) as [handler | e] eqn:Hg;
    step in H; [| discriminate].
  destruct (invoke handler (dict_get "arguments" d (PyDict [])) st)
    as [[result | e] st1] eqn:Hi; [| discriminate].
  apply invoke_inv in Hi as [Hrun _].
  apply lift_JSONResponse_inv in H as (_ & Hc & Hr & ->).
  exists handler, result. repeat split; try assumption.
  destruct (tools.items result) as [| c rest] eqn:Hitems; [reflexivity |].
  unfold render in Hr. cbn [json_encode bind result_monad] in Hr.
  rewrite (json_encode_item _ _ _ _ _ _ _ Hitems) in Hr. discriminate.
Qed.

End Sse.

(** ** The two encoders *)

Section Encode.
Context {RT : Runtime}.

Lemma pyval_induction (P : pyval -> Prop) :
  P PyNone -> (forall b, P (PyBool b)) -> (forall z, P (PyInt z)) ->
  (forall f, P (PyFloat f)) -> (forall s, P (PyStr s)) ->
  (forall l, Forall P l -> P (PyList l)) ->
  (forall l, Forall P l -> P (PyTuple l)) ->
  (forall d, Forall (fun kv => P (snd kv)) d -> P (PyDict d)) ->
  (forall c, P (PyObj c)) ->
  forall v, P v.
Proof.
  intros HN HB HI HF HS HL HT HD HO. fix IH 1. intros [| b | z | f | s | l | l | d | c].
  - exact HN.
  - apply HB.
  - apply HI.
  - apply HF.
  - apply HS.
  - apply HL. induction l as [| x l IHl]; constructor; [apply IH | exact IHl].
  - apply HT. induction l as [| x l IHl]; constructor; [apply IH | exact IHl].
  - apply HD. induction d as [| [k x] d IHd]; constructor; [apply IH | exact IHd].
  - apply HO.
Qed.

Section Options.
Variables (ensure_ascii allow_nan : bool) (item_sep key_sep : string).

Lemma json_encode_list (l : list pyval) :
  json_encode ensure_ascii allow_nan item_sep key_sep (PyList l) =
  (items <- encode_all (json_encode ensure_ascii allow_nan item_sep key_sep) l ;;
   Ok ("[" ++ join item_sep items ++ "]")).
Proof.
  cbn [json_encode].
  match goal with
  | |- bind (?F l) _ = _ =>
      assert (E : F l = encode_all (json_encode ensure_ascii allow_nan item_sep key_sep) l)
  end.
  { induction l as [| x l IH]; [reflexivity |].
    cbn [encode_all]. rewrite <- IH. reflexivity. }
  rewrite E. reflexivity.
Qed.

Lemma json_encode_tuple (l : list pyval) :
  json_encode ensure_ascii allow_nan item_sep key_sep (PyTuple l) =
  json_encode ensure_ascii allow_nan item_sep key_sep (PyList l).
Proof. reflexivity. Qed.

(** The members of a dict are encoded like the list of its values. *)
Lemma json_encode_dict_ok (d : list (string * pyval)) :
  (exists a, json_encode ensure_ascii allow_nan item_sep key_sep (PyDict d) = Ok a) <->
  (exists items,
     encode_all (json_encode ensure_ascii allow_nan item_sep key_sep) (map snd d) = Ok items).
Proof.
  cbn [json_encode].
  match goal with
  | |- (exists a, bind (?F d) _ = _) <-> _ =>
      assert (E : (exists r, F d = Ok r) <->
                  (exists items,
                     encode_all (json_encode ensure_ascii allow_nan item_sep key_sep)
                       (map snd d) = Ok items))
  end.
  { induction d as [| [k x] d IH]; [split; intros _; eexists; reflexivity |].
    cbn [map snd encode_all bind result_monad].
    destruct (json_encode ensure_ascii allow_nan item_sep key_sep x) as [s |];
      [| split; intros [r H]; discriminate].
    destruct IH as [IH1 IH2]. split; intros [r H].
    - destruct (encode_all _ (map snd d)) as [items |]; [eexists; reflexivity |].
      exfalso.
      match type of H with
      | match ?X with _ => _ end = _ => destruct X as [r' |] eqn:E'; [| discriminate]
      end.
      destruct (IH1 (ex_intro _ r' E')) as [r2 H2]. discriminate.
    - match goal with
      | |- exists r0, match ?X with _ => _ end = _ =>
          destruct X as [r' |] eqn:E'; [eexists; reflexivity |]
      end.
      destruct (encode_all _ (map snd d)) as [items |]; [| discriminate].
      destruct (IH2 (ex_intro _ items eq_refl)) as [r2 H2].
      assert (Hc : Ok r2 = Raise e) by (rewrite <- H2; exact E'). discriminate. }
  rewrite <- E. split; intros [a H].
  - match type of H with
    | bind ?X _ = _ => destruct X as [r |]; [eauto | discriminate]
    end.
  - rewrite H. eexists. reflexivity.
Qed.

End Options.

Lemma encode_all_relax (f g : pyval -> result string) (l : list pyval) :
  Forall (fun x => forall a, f x = Ok a -> exists b, g x = Ok b) l ->
  forall r, encode_all f l = Ok r -> exists r', encode_all g l = Ok r'.
Proof.
  induction 1 as [| x l Hx _ IH]; intros r; cbn [encode_all bind result_monad].
  - eauto.
  - destruct (f x) as [s |] eqn:E; [| discriminate].
    destruct (Hx _ eq_refl) as [b ->].
    destruct (encode_all f l) as [rl |]; [| discriminate].
    destruct (IH _ eq_refl) as [r' ->]. eauto.
Qed.

(** What the strict encoder of the response takes, [json.dumps] takes. *)
Lemma render_dumps (v : pyval) (a : string) :
  render v = Ok a -> exists b, json_dumps v = Ok b.
Proof.
  unfold render, json_dumps. revert a.
  induction v as [| b | z | f | s | l IH | l IH | d IH | c] using pyval_induction;
    intros a.
  - eexists; reflexivity.
  - destruct b; eexists; reflexivity.
  - eexists; reflexivity.
  - cbn [json_encode]. unfold encode_float.
    destruct (float_classify f); try discriminate; eauto.
  - eexists; reflexivity.
  - rewrite !json_encode_list. cbn [bind result_monad].
    destruct (encode_all (json_encode false false "," ":") l) as [r |] eqn:E; [| discriminate].
    destruct (encode_all_relax _ (json_encode true true ", " ": ") l IH r E) as [r' ->].
    eauto.
  - rewrite !json_encode_tuple, !json_encode_list. cbn [bind result_monad].
    destruct (encode_all (json_encode false false "," ":") l) as [r |] eqn:E; [| discriminate].
    destruct (encode_all_relax _ (json_encode true true ", " ": ") l IH r E) as [r' ->].
    eauto.
  - intros H. apply json_encode_dict_ok. 
    destruct (proj1 (json_encode_dict_ok false false "," ":" d) (ex_intro _ a H)) as [r E].
    apply (encode_all_relax (json_encode false false "," ":") _ (map snd d)) with (r := r);
      [| exact E].
    apply Forall_map. exact IH.
  - discriminate.
Qed.

End Encode.

(** ** The two surfaces, and the stream *)

Section Both.
Context {RT : Runtime}.
Variable tool_handlers : registry.

Lemma render_tool_content (text : pyval) (s : string) :
  render text = Ok s -> exists b, render (tool_content text) = Ok b.
Proof.
  unfold render, tool_content. intros H. cbn [json_encode bind result_monad]. rewrite H.
  eexists. reflexivity.
Qed.

(** The envelope branch on a registered tool that returns. *)
Lemma sse_jsonrpc_tools_call_run (d p : pydict) (n : string) (handler : tools.ToolHandler)
  (result : tools.Sequence) (w : World) (st : state) (text : pyval) (b : string) :
  dict_lookup "method" d = Some (PyStr "tools/call") ->
  dict_get "params" d (PyDict []) = PyDict p ->
  dict_get "name" p PyNone = PyStr n ->
  dict_lookup n tool_handlers = Some handler ->
  tools.run_tool handler (dict_get "arguments" p (PyDict [])) (world st) = (Ok result, w) ->
  (is_dict_or_list (sse_result_data result) = true /\
   exists s, json_dumps (sse_result_data result) = Ok s /\ text = PyStr s) \/
  (is_dict_or_list (sse_result_data result) = false /\ text = sse_result_data result) ->
  render (jsonrpc_result (dict_get "id" d PyNone) (tool_content text)) = Ok b ->
  sse_jsonrpc tool_handlers (PyDict d) st =
  (Ok {| status_code := 200;
         content := jsonrpc_result (dict_get "id" d PyNone) (tool_content text);
         body := b |},
   ran st handler (dict_get "arguments" p (PyDict [])) w).
Proof.
  intros Hmethod Hparams Hname Hreg Hrun Htext Hb.
  unfold sse_jsonrpc. step. rewrite (dict_get_found _ _ _ _ Hmethod). step.
  rewrite Hparams. step. rewrite Hname.
  unfold key_in, getitem, dict_mem. cbn [hashable]. rewrite Hreg. step.
  unfold invoke. rewrite Hrun. fold (ran st handler (dict_get "arguments" p (PyDict [])) w).
  destruct Htext as [(Hd & s & Hs & ->) | (Hd & ->)]; rewrite Hd; step.
  - rewrite Hs. step. rewrite (JSONResponse_ok _ _ _ Hb). reflexivity.
  - rewrite (JSONResponse_ok _ _ _ Hb). reflexivity.
Qed.


(** X18.  When POST /tools/call succeeds for a name and arguments, the
    JSON-RPC 2.0 tools/call on POST /sse with the same name and arguments (and
    an id that can be rendered), from the same state, succeeds too, leaves the
    same state, and its text item is made of the very result the REST answer
    carries: its JSON encoding when it is a dict or a list, itself
    otherwise. *)
Theorem rest_success_is_rpc_success (request : Request) (d p : pydict) (st st1 : state)
  (n : string) (args : list (string * pyval)) (rest_response : Response) (s : string) :
  call_tool tool_handlers {| name := n; arguments := args |} st = (Ok rest_response, st1) ->
  request_json request = Ok (PyDict d) ->
  dict_lookup "jsonrpc" d = Some (PyStr "2.0") ->
  dict_lookup "method" d = Some (PyStr "tools/call") ->
  dict_get "params" d (PyDict []) = PyDict p ->
  dict_get "name" p PyNone = PyStr n ->
  dict_get "arguments" p (PyDict []) = PyDict args ->
  render (dict_get "id" d PyNone) = Ok s ->
  exists response result_data text,
    sse_call_tool tool_handlers request st = (Ok response, st1) /\
    status_code response = 200 /\
    member "result" (content rest_response) = Some result_data /\
    member "result" (content response) = Some (tool_content text) /\
    text_item result_data text.
Proof.
  intros Hrest Hbody Hversion Hmethod Hparams Hname Hargs Hid.
  rewrite call_tool_cases in Hrest. cbn [name arguments] in Hrest.
  destruct (dict_lookup n tool_handlers) as [handler |] eqn:Hreg; [| discriminate].
  cbn zeta in Hrest.
  destruct (tools.run_tool handler (PyDict args) (world st)) as [[result | e] w] eqn:Hrun;
    [| discriminate].
  destruct (JSONResponse 200 _) as [r |] eqn:Hj in Hrest; [| discriminate].
  inversion Hrest. subst r st1. clear Hrest.
  apply JSONResponse_ok_inv in Hj as (_ & Hcontent & Hrender).
  rewrite render_call_tool_content in Hrender.
  destruct (render (call_tool_result_data result)) as [sd |] eqn:Hd; [| discriminate].
  rewrite <- Hargs in Hrun |- *.
  assert (Htext : exists text b,
            text_item (call_tool_result_data result) text /\
            render (jsonrpc_result (dict_get "id" d PyNone) (tool_content text)) = Ok b /\
            ((is_dict_or_list (sse_result_data result) = true /\
              exists s0, json_dumps (sse_result_data result) = Ok s0 /\ text = PyStr s0) \/
             (is_dict_or_list (sse_result_data result) = false /\
              text = sse_result_data result))).
  { unfold text_item. change (sse_result_data result) with (call_tool_result_data result).
    destruct (is_dict_or_list (call_tool_result_data result)).
    - destruct (render_dumps _ _ Hd) as [b Hb].
      destruct (render_tool_content (PyStr b) (encode_str false b) eq_refl) as [b1 Hb1].
      destruct (render_jsonrpc_result _ _ _ _ Hid Hb1) as [b2 Hb2].
      exists (PyStr b), b2. split; [eauto |]. split; [exact Hb2 |]. left. eauto.
    - destruct (render_tool_content _ _ Hd) as [b1 Hb1].
      destruct (render_jsonrpc_result _ _ _ _ Hid Hb1) as [b2 Hb2].
      exists (call_tool_result_data result), b2. auto. }
  destruct Htext as (text & b & Htext & Hb & Hcase).
  exists {| status_code := 200;
            content := jsonrpc_result (dict_get "id" d PyNone) (tool_content text);
            body := b |}, (call_tool_result_data result), text.
  split; [| split; [reflexivity | split; [rewrite Hcontent; reflexivity | split;
                                          [reflexivity | exact Htext]]]].
  apply sse_call_tool_ok. rewrite (sse_dispatch_jsonrpc _ _ _ _ Hbody Hversion).
  exact (sse_jsonrpc_tools_call_run d p n handler result w st text b
           Hmethod Hparams Hname Hreg Hrun Hcase Hb).
Qed.

End Both.

Section StreamGrowth.
Context {RT : Runtime}.

Lemma keep_alive_loop_app (turns more : list turn) :
  keep_alive_loop (turns ++ more) =
  match snd (keep_alive_loop turns) with
  | Waiting => ((fst (keep_alive_loop turns) ++ fst (keep_alive_loop more))%list,
                snd (keep_alive_loop more))
  | _ => keep_alive_loop turns
  end.
Proof.
  induction turns as [| t turns IH]; cbn [app keep_alive_loop].
  - destruct (keep_alive_loop more). reflexivity.
  - destruct (is_disconnected t) as [[|] | e]; try reflexivity.
    destruct (sleep t) as [u | e]; [| reflexivity].
    rewrite IH. destruct (keep_alive_loop turns) as [frames [| | e]]; reflexivity.
Qed.

Lemma keep_alive_loop_waiting (turns : list turn) :
  snd (keep_alive_loop turns) = Waiting <-> Forall alive turns.
Proof.
  induction turns as [| t turns IH]; cbn [keep_alive_loop].
  - split; [constructor | reflexivity].
  - split.
    + destruct (is_disconnected t) as [[|] | e] eqn:Hc; try discriminate.
      destruct (sleep t) as [u | e] eqn:Hs; [| discriminate].
      destruct (keep_alive_loop turns) as [frames e]. cbn [snd] in *. intros H.
      constructor; [split; eauto | now apply IH].
    + intros H. inversion H as [| t' l [Hc [u Hs]] Hall]. subst.
      rewrite Hc, Hs. destruct (keep_alive_loop turns) as [frames e]. cbn [snd] in *.
      now apply IH.
Qed.

(** X19.  What the stream of GET /sse has sent stays sent: along more
    turns the frames are the frames so far followed by new ones, and once the
    stream is no longer open further turns change nothing. *)
Theorem stream_frames_only_grow (turns more : list turn) :
  (exists extra,
     fst (event_generator (turns ++ more)) = (fst (event_generator turns) ++ extra)%list) /\
  (snd (event_generator turns) <> Open ->
   event_generator (turns ++ more) = event_generator turns).
Proof.
  unfold event_generator. rewrite hello_frame, keep_alive_loop_app.
  destruct (keep_alive_loop turns) as [frames [| | e]]; cbn [fst snd].
  - split; [| intros H; now contradiction H].
    destruct (keep_alive_loop more) as [frames' [| | e]]; cbn [fst snd].
    + exists frames'. reflexivity.
    + exists frames'. reflexivity.
    + unfold error_event. destruct (error_frame (exn_str e)) as (frame & -> & _).
      exists (frames' ++ [frame])%list. cbn. now rewrite app_assoc.
  - split; [exists []; now rewrite app_nil_r | reflexivity].
  - split; [exists []; now rewrite app_nil_r | reflexivity].
Qed.

(** X20.  The stream of GET /sse is open after the given turns exactly
    when in each of them the client was found connected and the sleep ended;
    it has then sent the connection event and one keep-alive comment for each
    turn, and nothing else. *)
Theorem stream_open_while_connected (turns : list turn) :
  (snd (event_generator turns) = Open <-> Forall alive turns) /\
  (Forall alive turns ->
   event_generator turns = (connection_event :: repeat keep_alive (length turns), Open)).
Proof.
  split.
  - rewrite <- keep_alive_loop_waiting. unfold event_generator. rewrite hello_frame.
    destruct (keep_alive_loop turns) as [frames [| | e]]; cbn [snd].
    + split; reflexivity.
    + split; discriminate.
    + unfold error_event. destruct (error_frame (exn_str e)) as (frame & -> & _).
      split; discriminate.
  - intros H. unfold event_generator. rewrite hello_frame.
    rewrite <- (app_nil_r turns) at 1. rewrite (keep_alive_loop_alive _ _ H).
    cbn. now rewrite app_nil_r.
Qed.

End StreamGrowth.

(** ** More of the gateway at work *)

Section MoreDemoFacts.
#[local] Existing Instance demo_runtime.

Lemma registered_keys_witness :
  dict_keys demo_handlers = map tools.name (instances demo_tools).
Proof.
  apply (proj2 (proj2 (proj2 (proj2 (registered_keys demo_tools))))).
  repeat (constructor; [cbn; intuition discriminate |]). constructor.
Defined.

Lemma call_tool_success_witness :
  exists response,
    call_tool demo_handlers {| name := "obsidian_list_files_in_vault"; arguments := [] |} start
    = (Ok response, after "obsidian_list_files_in_vault") /\
    status_code response = 200 /\
    content response =
      PyDict [ ("success", PyBool true);
               ("tool", PyStr "obsidian_list_files_in_vault");
               ("result", PyList [PyStr "a.md"; PyStr "b.md"]) ].
Proof.
  apply (call_tool_success demo_handlers
           {| name := "obsidian_list_files_in_vault"; arguments := [] |} start
           (demo_handler "obsidian_list_files_in_vault" (text_result (dq "['a.md', 'b.md']")))
           (tools.ListOf [TextContent (dq "['a.md', 'b.md']")]) tt
           (dq "['a.md','b.md']")).
  - reflexivity.
  - reflexivity.
  - reflexivity.
Defined.

Lemma call_tool_raises_http_errors_witness :
  exists status detail,
    HTTPException 500 "Error 40400: Not Found" = HTTPException status detail /\
    (dict_lookup "obsidian_delete_file" demo_handlers = None ->
     status = 404 /\ after "obsidian_delete_file" = start).
Proof.
  apply (call_tool_raises_http_errors demo_handlers
           {| name := "obsidian_delete_file"; arguments := [] |} start
           (after "obsidian_delete_file") (HTTPException 500 "Error 40400: Not Found")).
  reflexivity.
Defined.

Lemma call_tool_tool_failure_witness :
  call_tool demo_handlers {| name := "obsidian_delete_file"; arguments := [] |} start
  = (Raise (HTTPException 500 "Error 40400: Not Found"), after "obsidian_delete_file").
Proof.
  apply (proj1 (call_tool_tool_failure demo_handlers
                  {| name := "obsidian_delete_file"; arguments := [] |} start
                  (demo_handler "obsidian_delete_file" (Raise (ToolError "Error 40400: Not Found")))
                  (ToolError "Error 40400: Not Found") tt eq_refl eq_refl)).
Defined.

Lemma call_tool_item_without_text_witness :
  call_tool demo_handlers {| name := "obsidian_get_periodic_note"; arguments := [] |} start
  = (Raise (HTTPException 500 "Object of type ImageContent is not JSON serializable"),
     after "obsidian_get_periodic_note").
Proof.
  apply (call_tool_item_without_text demo_handlers
           {| name := "obsidian_get_periodic_note"; arguments := [] |} start
           (demo_handler "obsidian_get_periodic_note"
              (Ok (tools.ListOf [OpaqueContent "ImageContent"])))
           (tools.ListOf [OpaqueContent "ImageContent"]) tt "ImageContent" []).
  - reflexivity.
  - reflexivity.
  - reflexivity.
Defined.


Lemma call_tool_runs_one_tool_witness :
  (dict_lookup "obsidian_patch_content" demo_handlers = None /\
   after "obsidian_patch_content" = start) \/
  (exists handler r0,
     dict_lookup "obsidian_patch_content" demo_handlers = Some handler /\
     tools.run_tool handler (PyDict []) tt = (r0, tt) /\
     calls (after "obsidian_patch_content")
     = ([] ++ [(tools.name handler, PyDict [])])%list).
Proof.
  assert (Hcall : call_tool demo_handlers
                    {| name := "obsidian_patch_content"; arguments := [] |} start
                  = (fst (call_tool demo_handlers
                            {| name := "obsidian_patch_content"; arguments := [] |} start),
                     after "obsidian_patch_content")) by (vm_compute; reflexivity).
  exact (call_tool_runs_one_tool demo_handlers
           {| name := "obsidian_patch_content"; arguments := [] |} start
           (after "obsidian_patch_content") _ Hcall).
Defined.

Lemma sse_body_not_an_object_witness :
  exists response e,
    sse_call_tool demo_handlers (post "[]") start = (Ok response, start) /\
    status_code response = 500 /\
    content response = internal_error e /\
    (forall e0, request_json (post "[]") = Raise e0 -> e = e0).
Proof.
  apply (sse_body_not_an_object demo_handlers (post "[]") start).
  intros d H. discriminate H.
Defined.

Lemma sse_initialize_witness :
  exists response,
    sse_call_tool demo_handlers
      (post (dq "{'jsonrpc':'2.0','id':2,'method':'initialize','params':{'x':[1]}}")) start
    = (Ok response, start) /\
    status_code response = 200 /\
    content response =
      PyDict [("jsonrpc", PyStr "2.0"); ("id", PyInt 2); ("result", initialize_result)].
Proof.
  apply (sse_initialize demo_handlers
           (post (dq "{'jsonrpc':'2.0','id':2,'method':'initialize','params':{'x':[1]}}"))
           [ ("jsonrpc", PyStr "2.0"); ("id", PyInt 2); ("method", PyStr "initialize");
             ("params", PyDict [("x", PyList [PyInt 1])]) ] start "2").
  - reflexivity.
  - reflexivity.
  - reflexivity.
  - reflexivity.
Defined.


Lemma sse_tools_list_witness :
  exists response listing,
    sse_call_tool demo_handlers
      (post (dq "{'jsonrpc':'2.0','id':3,'method':'tools/list'}")) start
    = (Ok response, start) /\
    status_code response = 200 /\
    list_tools demo_handlers start = (Ok listing, start) /\
    member "result" (content response) = Some listing /\
    member "id" (content response) = Some (PyInt 3) /\
    exists descriptors,
      member "tools" listing = Some (PyList descriptors) /\
      length descriptors = length demo_handlers.
Proof.
  refine (sse_tools_list demo_handlers
            (post (dq "{'jsonrpc':'2.0','id':3,'method':'tools/list'}"))
            [("jsonrpc", PyStr "2.0"); ("id", PyInt 3); ("method", PyStr "tools/list")]
            start "3" _ _ _ _ _ _).
  - reflexivity.
  - reflexivity.
  - reflexivity.
  - reflexivity.
  - vm_compute. reflexivity.
Defined.

Lemma sse_call_tool_runs_one_tool_witness :
  after "obsidian_delete_file" = start \/
  exists arguments, ran_once demo_handlers arguments start (after "obsidian_delete_file").
Proof.
  assert (Hcall : exists response,
            sse_call_tool demo_handlers (call_of "7" (dq "'obsidian_delete_file'")) start
            = (Ok response, after "obsidian_delete_file")).
  { eexists. vm_compute. reflexivity. }
  destruct Hcall as [response Hcall].
  exact (sse_call_tool_runs_one_tool demo_handlers _ start _ response Hcall).
Defined.

Lemma sse_simple_form_success_witness :
  exists handler result,
    getitem demo_handlers (PyStr "obsidian_complex_search") = Ok handler /\
    tools.run_tool handler (PyDict []) tt = (Ok result, tt) /\
    tools.items result = [] /\
    PyDict [("success", PyBool true); ("result", PyList [])]
    = PyDict [("success", PyBool true); ("result", tools.value result)].
Proof.
  apply (sse_simple_form_success demo_handlers
           (simple_of (dq "'obsidian_complex_search'"))
           [("name", PyStr "obsidian_complex_search"); ("arguments", PyDict [])]
           start (after "obsidian_complex_search")
           {| status_code := 200;
              content := PyDict [("success", PyBool true); ("result", PyList [])];
              body := dq "{'success':true,'result':[]}" |}).
  - reflexivity.
  - intros v H. discriminate H.
  - vm_compute. reflexivity.
  - reflexivity.
Defined.


Lemma rest_success_is_rpc_success_witness :
  exists response result_data text,
    sse_call_tool demo_handlers (call_of "1" (dq "'obsidian_simple_search'")) start
    = (Ok response, after "obsidian_simple_search") /\
    status_code response = 200 /\
    result_data = PyDict [("a", PyInt 1)] /\
    member "result" (content response) = Some (tool_content text) /\
    text_item result_data text.
Proof.
  assert (Hrest : exists rest_response,
            call_tool demo_handlers
              {| name := "obsidian_simple_search"; arguments := [] |} start
            = (Ok rest_response, after "obsidian_simple_search") /\
            member "result" (content rest_response) = Some (PyDict [("a", PyInt 1)])).
  { eexists. split; [vm_compute; reflexivity | reflexivity]. }
  destruct Hrest as (rest_response & Hrest & Hresult).
  destruct (rest_success_is_rpc_success demo_handlers
              (call_of "1" (dq "'obsidian_simple_search'"))
              (body_of (PyInt 1) (PyStr "obsidian_simple_search"))
              [("name", PyStr "obsidian_simple_search"); ("arguments", PyDict [])]
              start (after "obsidian_simple_search") "obsidian_simple_search" []
              rest_response "1" Hrest eq_refl eq_refl eq_refl eq_refl eq_refl eq_refl eq_refl)
    as (response & result_data & text & Hcall & Hstatus & Hr1 & Hr2 & Htext).
  exists response, result_data, text. rewrite Hresult in Hr1. injection Hr1 as <-.
  auto.
Defined.

Lemma stream_frames_only_grow_witness :
  event_generator ([always_alive; gone] ++ [always_alive; always_alive])
  = event_generator [always_alive; gone].
Proof.
  apply (proj2 (stream_frames_only_grow [always_alive; gone] [always_alive; always_alive])).
  discriminate.
Defined.

Lemma stream_open_while_connected_witness :
  event_generator [always_alive; always_alive; always_alive]
  = (connection_event :: repeat keep_alive 3, Open).
Proof.
  apply (proj2 (stream_open_while_connected [always_alive; always_alive; always_alive])).
  repeat constructor; exists tt; reflexivity.
Defined.

End MoreDemoFacts.
